(** * GPTGolf physics core: trajectory integrator and force models

    A shallow embedding of [src/physics/physics.cpp], [src/physics/atmosphere.cpp],
    [src/physics/trajectory.cpp], of the headers [physics_validation.h],
    [trajectory.h], [vector3d.h], and of the driver [src/main.cpp] (its
    parameter check and exit code, without what it prints).

    - A C++ [double] is a binary64 value: Rocq's primitive [float], whose
      operations are the IEEE-754 ones (round to nearest even, one NaN).
    - The functions of the C mathematical library that the code calls
      ([exp], [sin], [cos], [pow]) are not part of the repository; the
      integrator is parameterised by them (record [Libm]).  Statements that
      hold whatever these functions compute are stated for every [Libm];
      [AnnexF] collects the values ISO C fixes exactly; [libm_ref] is a
      reference implementation used to run the integrator on concrete
      inputs.  [sqrt] and [abs] are the IEEE operations.
      Every expression is evaluated in binary64 as written (no fused
      multiply-add, no extended precision); the unqualified [abs] of
      trajectory.cpp is the [double] overload.
    - [throw] / [try ... catch] is an error monad over the two exception
      classes that the handler of [calculateTrajectoryWithValidation]
      distinguishes.  Nothing in the model throws the second class:
      failure of memory allocation is not modelled.
    - [std::vector<TrajectoryPoint>] is a [list], [push_back] appends at the
      end; [size_t iterationCount] is a [Z].
    - Modules [Ideal], [IdealAtmosphere] and [IdealMagnus] read the
      closed-form models over the real numbers (the arithmetic the formulas
      denote, without rounding). *)

From Stdlib Require Import ZArith Floats String List Bool Lia Reals Lra.
Import ListNotations.

Set Warnings "-inexact-float".

Open Scope float_scope.

(** ** Exceptions *)

(** [PhysicsValidationError] derives from [std::runtime_error]; every other
    exception the handler can see is a [std::exception]. *)
Inductive exception : Type :=
| PhysicsValidationError (what : string)
| StdException (what : string).

Definition exc (A : Type) : Type := (exception + A)%type.

Definition ret {A : Type} (a : A) : exc A := inr a.
Definition throw {A : Type} (e : exception) : exc A := inl e.
Definition bind {A B : Type} (c : exc A) (k : A -> exc B) : exc B :=
  match c with
  | inl e => inl e
  | inr a => k a
  end.

Notation "x <- c ;; k" := (bind c (fun x => k))
  (at level 61, c at next level, right associativity).
Notation "c ;;; k" := (bind c (fun _ => k))
  (at level 61, right associativity).

(** ** <cmath> and <algorithm> *)

Record Libm : Type := {
  c_exp : float -> float;
  c_sin : float -> float;
  c_cos : float -> float;
  c_pow : float -> float -> float
}.

(** [std::min(a, b)] is [(b < a) ? b : a]; [std::max(a, b)] is [(a < b) ? b : a]. *)
Definition std_min (a b : float) : float := if b <? a then b else a.
Definition std_max (a b : float) : float := if a <? b then b else a.

Definition isfinite (v : float) : bool := PrimFloat.is_finite v.

(** Conversion of a [size_t] to [double]. *)
Definition double_of_size (n : nat) : float := of_uint63 (Uint63.of_Z (Z.of_nat n)).

(** ** physics.h: constants and data *)

Definition M_PI : float := 3.14159265358979323846.

Definition GRAVITY : float := 9.81.
Definition STANDARD_AIR_DENSITY : float := 1.225.
Definition AIR_VISCOSITY : float := 1.81e-5.

Definition BALL_MASS : float := 0.0459.
Definition BALL_RADIUS : float := 0.0213.
Definition BALL_AREA : float := M_PI * BALL_RADIUS * BALL_RADIUS.

Definition BASE_DRAG_COEFFICIENT : float := 0.47.
Definition BASE_LIFT_COEFFICIENT : float := 0.25.
Definition CRITICAL_REYNOLDS : float := 4.0e4.
Definition TURBULENT_REYNOLDS : float := 4.0e5.

Definition SPIN_DECAY_RATE : float := 0.045.
Definition SURFACE_ROUGHNESS : float := 0.0014.
Definition MAX_LIFT_COEFFICIENT : float := 0.35.

Record SpinAxis : Type := mkSpinAxis { tilt : float; direction : float }.

Record TrajectoryPoint : Type := mkTrajectoryPoint { pt_x : float; pt_y : float }.

Record TrajectoryResult : Type := mkTrajectoryResult {
  trajectory : list TrajectoryPoint;
  distance : float;
  apex : float
}.

(** The default constructor [TrajectoryResult()]. *)
Definition TrajectoryResult_default : TrajectoryResult :=
  {| trajectory := []; distance := 0; apex := 0 |}.

(** ** vector3d.h *)

Record Vector3D : Type := mkVector3D { v_x : float; v_y : float; v_z : float }.

Definition Vector3D_xy (a b : float) : Vector3D := mkVector3D a b 0.

Definition magnitude (v : Vector3D) : float :=
  PrimFloat.sqrt (v_x v * v_x v + v_y v * v_y v + v_z v * v_z v).

Definition scale (v : Vector3D) (scalar : float) : Vector3D :=
  mkVector3D (v_x v * scalar) (v_y v * scalar) (v_z v * scalar).

Definition Vector3D_sub (a b : Vector3D) : Vector3D :=
  mkVector3D (v_x a - v_x b) (v_y a - v_y b) (v_z a - v_z b).

(** ** weather_data.h (the fields [getDensity] reads) *)

Record WeatherData : Type := mkWeatherData {
  w_temperature : float;
  w_humidity : float;
  w_pressure : float
}.

(** ** atmosphere.cpp *)

Record AtmosphericLayer : Type := mkAtmosphericLayer {
  baseAltitude : float;
  temperature : float;
  pressure : float;
  lapseRate : float
}.

Definition layers : list AtmosphericLayer :=
  [ mkAtmosphericLayer 0 288.15 101325.0 (-0.0065);
    mkAtmosphericLayer 11000 216.65 22632.1 0.0;
    mkAtmosphericLayer 20000 216.65 5474.89 0.001;
    mkAtmosphericLayer 32000 228.65 868.019 0.0028;
    mkAtmosphericLayer 47000 270.65 110.906 0.0 ].

Definition gas_R : float := 287.058.
Definition g : float := 9.80665.

(** The [for] loop of [findLayerIndex]: [rest] holds [layers[i ..]]. *)
Fixpoint findLayerIndex_loop (rest : list AtmosphericLayer) (i : nat)
    (altitude : float) : option nat :=
  match rest with
  | [] => None
  | l :: rest' =>
      if altitude <? baseAltitude l then Some (i - 1)%nat
      else findLayerIndex_loop rest' (S i) altitude
  end.

Definition findLayerIndex (altitude : float) : nat :=
  match findLayerIndex_loop (tl layers) 1 altitude with
  | Some i => i
  | None => (length layers - 1)%nat
  end.

(** [layers[findLayerIndex(altitude)]]: [operator[]] does no bounds check;
    [findLayerIndex_in_range] below shows that the index is always valid, so
    the default of [nth] is never returned. *)
Definition getLayer (altitude : float) : AtmosphericLayer :=
  nth (findLayerIndex altitude) layers (mkAtmosphericLayer 0 0 0 0).

Definition getTemperature (altitude : float) : float :=
  let layer := getLayer altitude in
  let deltaH := altitude - baseAltitude layer in
  temperature layer + lapseRate layer * deltaH.

Section WithLibm.

Context (libm : Libm).

Local Abbreviation exp := (c_exp libm).
Local Abbreviation sin := (c_sin libm).
Local Abbreviation cos := (c_cos libm).
Local Abbreviation pow := (c_pow libm).

Definition getPressure (altitude : float) : float :=
  let layer := getLayer altitude in
  let deltaH := altitude - baseAltitude layer in
  let T := getTemperature altitude in
  if PrimFloat.abs (lapseRate layer) <? 1e-10 then
    pressure layer * exp ((- g) * deltaH / (gas_R * T))
  else
    let exponent := (- g) / (gas_R * lapseRate layer) in
    pressure layer * pow (T / temperature layer) exponent.

Definition calculateVaporPressure (temperature humidity : float) : float :=
  let tempC := temperature - 273.15 in
  let saturationPressure := 610.78 * exp ((17.27 * tempC) / (tempC + 237.3)) in
  (humidity / 100.0) * saturationPressure.

Definition getDensity (altitude : float) (weatherData : option WeatherData) : float :=
  let temperature := getTemperature altitude in
  let pressure := getPressure altitude in
  match weatherData with
  | Some wd =>
      let localTemp := w_temperature wd + 273.15 in
      let localPress := w_pressure wd * 100.0 in
      let tempRatio := temperature / localTemp in
      let pressRatio := pressure / localPress in
      let temperature := temperature * tempRatio in
      let pressure := pressure * pressRatio in
      let vaporPressure := calculateVaporPressure temperature (w_humidity wd) in
      let virtualTemp := temperature / (1.0 - 0.378 * vaporPressure / pressure) in
      pressure / (gas_R * virtualTemp)
  | None => pressure / (gas_R * temperature)
  end.

(** ** physics.cpp *)

Definition getAirDensity (weatherData : option WeatherData) (altitude : float) : float :=
  getDensity altitude weatherData.

Definition calculateReynoldsNumber (velocity altitude : float) : float :=
  let density := getAirDensity None altitude in
  (density * velocity * (2 * BALL_RADIUS)) / AIR_VISCOSITY.

Definition calculateDragCoefficient (reynoldsNumber : float) : float :=
  if reynoldsNumber <? CRITICAL_REYNOLDS then
    BASE_DRAG_COEFFICIENT
  else if TURBULENT_REYNOLDS <? reynoldsNumber then
    BASE_DRAG_COEFFICIENT * 0.5
  else
    let t := (reynoldsNumber - CRITICAL_REYNOLDS) /
             (TURBULENT_REYNOLDS - CRITICAL_REYNOLDS) in
    BASE_DRAG_COEFFICIENT * (1.0 - 0.5 * t).

Definition calculateSpinDecay (initialSpin time : float) : float :=
  initialSpin * exp ((- SPIN_DECAY_RATE) * time).

Definition calculateLiftCoefficient (spinRate velocity : float) : float :=
  let spinFactor := (spinRate * M_PI / 30.0) * BALL_RADIUS / velocity in
  let roughnessEffect := 1.0 + (SURFACE_ROUGHNESS / BALL_RADIUS) in
  let liftCoef := BASE_LIFT_COEFFICIENT * spinFactor * roughnessEffect in
  std_min liftCoef MAX_LIFT_COEFFICIENT.

Definition calculateMagnusForce (spinRate velocity radius : float)
    (spinAxis : SpinAxis) (time : float) : float :=
  let currentSpin := calculateSpinDecay spinRate time in
  let tiltRad := tilt spinAxis * M_PI / 180.0 in
  let directionRad := direction spinAxis * M_PI / 180.0 in
  let verticalSpin := currentSpin * cos tiltRad in
  let horizontalSpin := currentSpin * sin tiltRad in
  let liftCoef := calculateLiftCoefficient currentSpin velocity in
  let forceMagnitude :=
    0.5 * STANDARD_AIR_DENSITY * BALL_AREA * liftCoef * velocity * velocity in
  let verticalForce := forceMagnitude * (verticalSpin / currentSpin) in
  let horizontalForce := forceMagnitude * (horizontalSpin / currentSpin) in
  verticalForce * cos directionRad + horizontalForce * sin directionRad.

Definition getWindGradient (baseWindSpeed altitude : float) : float :=
  let referenceHeight := 10.0 in
  let hellmannExponent := 0.143 in
  if altitude <? 0.1 then baseWindSpeed
  else baseWindSpeed * pow (altitude / referenceHeight) hellmannExponent.

(** The two reference parameters are returned as a pair. *)
Definition calculateRelativeVelocity (velocityX velocityY windSpeed windAngle : float)
    : float * float :=
  let windAngleRad := windAngle * M_PI / 180.0 in
  let windVx := windSpeed * cos windAngleRad in
  let windVy := windSpeed * sin windAngleRad in
  (velocityX - windVx, velocityY - windVy).

End WithLibm.

(** ** physics_validation.h *)

Open Scope string_scope.
Open Scope float_scope.

Definition validateLaunchParameters
    (initialSpeed launchAngle spinRate windSpeed windAngle : float) : exc unit :=
  if initialSpeed <? 0.0 then
    throw (PhysicsValidationError "Initial speed cannot be negative")
  else if 100.0 <? initialSpeed then
    throw (PhysicsValidationError "Initial speed exceeds maximum physical limit")
  else if (launchAngle <? -90.0) || (90.0 <? launchAngle) then
    throw (PhysicsValidationError "Launch angle must be between -90 and 90 degrees")
  else if spinRate <? 0.0 then
    throw (PhysicsValidationError "Spin rate cannot be negative")
  else if 10000.0 <? spinRate then
    throw (PhysicsValidationError "Spin rate exceeds maximum physical limit")
  else if windSpeed <? 0.0 then
    throw (PhysicsValidationError "Wind speed cannot be negative")
  else if 50.0 <? windSpeed then
    throw (PhysicsValidationError "Wind speed exceeds maximum expected value")
  else if (windAngle <? 0.0) || (360.0 <? windAngle) then
    throw (PhysicsValidationError "Wind angle must be between 0 and 360 degrees")
  else ret tt.

(** [maxDistance] has the default argument [1000.0] at the only call. *)
Definition validateTrajectoryPoint (point : TrajectoryPoint) (maxDistance : float)
    : exc unit :=
  if negb (isfinite (pt_x point)) || negb (isfinite (pt_y point)) then
    throw (PhysicsValidationError "Non-finite values in trajectory calculation")
  else if (pt_x point <? 0.0) || (maxDistance <? pt_x point) then
    throw (PhysicsValidationError "Trajectory point X coordinate out of bounds")
  else if (pt_y point <? -0.1) || (500.0 <? pt_y point) then
    throw (PhysicsValidationError "Trajectory point Y coordinate out of bounds")
  else ret tt.

Definition validatePhysicalQuantity (value minValue maxValue : float) (name : string)
    : exc unit :=
  if negb (isfinite value) then
    throw (PhysicsValidationError (name ++ " calculation resulted in non-finite value")%string)
  else if (value <? minValue) || (maxValue <? value) then
    throw (PhysicsValidationError (name ++ " out of valid range")%string)
  else ret tt.

(** ** trajectory.h *)

Inductive TrajectoryStatus : Type :=
| Success
| InvalidInput
| CalculationError
| ConvergenceFailure.

Record TrajectoryResultWithStatus : Type := mkTrajectoryResultWithStatus {
  status : TrajectoryStatus;
  errorMessage : string;
  result : option TrajectoryResult
}.

Definition isSuccess (r : TrajectoryResultWithStatus) : bool :=
  match status r with
  | Success => true
  | _ => false
  end.

(** ** trajectory.cpp *)

Definition MIN_TIMESTEP : float := 0.00005.
Definition MAX_TIMESTEP : float := 0.003.
Definition BASE_TIMESTEP : float := 0.0003.
Definition VELOCITY_SCALE : float := 0.045.
Definition ACCEL_SCALE : float := 0.15.
Definition SPIN_SCALE : float := 0.0002.
Definition HEIGHT_SCALE : float := 0.2.
Definition SMOOTH_FACTOR : float := 0.8.
Definition MAX_ITERATIONS : Z := 10000.

(** The local variables of [calculateTrajectoryWithValidation] that live
    across iterations of the simulation loop ([result.trajectory] and
    [result.apex] are the two fields of [result] written inside the loop;
    [velocityMagnitude] is assigned once and never read). *)
Record LoopState : Type := mkLoopState {
  vx : float;
  vy : float;
  x : float;
  y : float;
  prevY : float;
  prevTimeStep : float;
  prevVelocity : Vector3D;
  timeStep : float;
  iterationCount : Z;
  r_trajectory : list TrajectoryPoint;
  r_apex : float
}.

(** [v.back()]; the vector is never empty where the code calls it
    (lemma [Inv_nonempty]). *)
Definition back (v : list TrajectoryPoint) : TrajectoryPoint :=
  last v (mkTrajectoryPoint 0 0).

Definition push_back (v : list TrajectoryPoint) (p : TrajectoryPoint)
    : list TrajectoryPoint :=
  (v ++ [p])%list.

(** [v.back() = p]. *)
Definition set_back (v : list TrajectoryPoint) (p : TrajectoryPoint)
    : list TrajectoryPoint :=
  (removelast v ++ [p])%list.

Definition empty (v : list TrajectoryPoint) : bool :=
  match v with
  | [] => true
  | _ :: _ => false
  end.

Section Integrator.

Context (libm : Libm).

Local Abbreviation exp := (c_exp libm).
Local Abbreviation sin := (c_sin libm).
Local Abbreviation cos := (c_cos libm).
Local Abbreviation pow := (c_pow libm).

Context (initialSpeed launchAngle spinRate windSpeed windAngle : float)
        (spinAxis : SpinAxis).

(** Lines 70-107: the adaptive time step, from the state at the top of the
    iteration and the relative speed. *)
Definition adaptiveTimeStep (st : LoopState) (relV : float) : float :=
  let currentVelocity := Vector3D_xy (vx st) (vy st) in
  let acceleration :=
    scale (Vector3D_sub currentVelocity (prevVelocity st)) (1.0 / prevTimeStep st) in
  let accelMagnitude := magnitude acceleration in
  let launchProgress :=
    std_min 1.0 (double_of_size (length (r_trajectory st)) / 12.0) in
  let landingFactor :=
    if vy st <? 0 then std_max 0.0 (std_min 1.0 (pow (y st / 5.0) 0.8)) else 1.0 in
  let velocityFactor := exp ((- VELOCITY_SCALE) * pow relV 0.85) in
  let accelFactor := exp ((- ACCEL_SCALE) * pow accelMagnitude 0.8) in
  let spinFactor := exp ((- SPIN_SCALE) * pow spinRate 0.9) in
  let heightFactor := std_min 1.0 (pow (1.0 - exp ((- HEIGHT_SCALE) * y st)) 0.85) in
  let phaseFactor := 0.4 + (0.6 * launchProgress * landingFactor) in
  let rawTimeStep :=
    BASE_TIMESTEP * velocityFactor * accelFactor * spinFactor * heightFactor * phaseFactor in
  let timeStep := (SMOOTH_FACTOR * prevTimeStep st) + ((1.0 - SMOOTH_FACTOR) * rawTimeStep) in
  std_min MAX_TIMESTEP (std_max MIN_TIMESTEP timeStep).

(** Lines 113-158: the new velocity [(vx, vy)]. *)
Definition updateVelocity (st : LoopState) (relVx relVy relV timeStep : float)
    : exc (float * float) :=
  if 0.001 <? relV then
    let reynoldsNumber := calculateReynoldsNumber libm relV (y st) in
    let dragCoef := calculateDragCoefficient reynoldsNumber in
    let density := getAirDensity libm None (y st) in
    validatePhysicalQuantity reynoldsNumber 0.0 1e6 "Reynolds number" ;;;
    validatePhysicalQuantity dragCoef 0.0 1.0 "Drag coefficient" ;;;
    validatePhysicalQuantity density 0.5 1.5 "Air density" ;;;
    let dragForce := 0.5 * density * dragCoef * BALL_AREA * relV * relV in
    let elapsedTime := x st / initialSpeed in
    let magnusForce :=
      calculateMagnusForce libm spinRate relV BALL_RADIUS spinAxis elapsedTime in
    validatePhysicalQuantity dragForce 0.0 100.0 "Drag force" ;;;
    validatePhysicalQuantity magnusForce (-50.0) 50.0 "Magnus force" ;;;
    let invRelV := 1.0 / relV in
    let dragAx := (- dragForce) * relVx * invRelV / BALL_MASS in
    let dragAy := (- dragForce) * relVy * invRelV / BALL_MASS in
    let magnusAx := (- magnusForce) * relVy * invRelV / BALL_MASS in
    let magnusAy := magnusForce * relVx * invRelV / BALL_MASS in
    validatePhysicalQuantity dragAx (-1000.0) 1000.0 "Drag acceleration X" ;;;
    validatePhysicalQuantity dragAy (-1000.0) 1000.0 "Drag acceleration Y" ;;;
    validatePhysicalQuantity magnusAx (-500.0) 500.0 "Magnus acceleration X" ;;;
    validatePhysicalQuantity magnusAy (-500.0) 500.0 "Magnus acceleration Y" ;;;
    ret (vx st + (dragAx + magnusAx) * timeStep,
         vy st + (dragAy + magnusAy - GRAVITY) * timeStep)
  else
    ret (vx st, vy st - GRAVITY * timeStep).

(** Lines 167-172: record the point unless it is within 0.1 m of the last
    recorded one in both coordinates. *)
Definition recordPoint (v : list TrajectoryPoint) (x y : float)
    : list TrajectoryPoint :=
  if (length v <? 2)%nat
     || (0.1 <? PrimFloat.abs (x - pt_x (back v)))
     || (0.1 <? PrimFloat.abs (y - pt_y (back v)))
  then push_back v (mkTrajectoryPoint x y)
  else v.

(** The body of the [while] loop (lines 59-177). *)
Definition loop_body (st : LoopState) : exc LoopState :=
  let prevY := y st in
  let effectiveWindSpeed := getWindGradient libm windSpeed (y st) in
  let '(relVx, relVy) :=
    calculateRelativeVelocity libm (vx st) (vy st) effectiveWindSpeed windAngle in
  let relV := PrimFloat.sqrt (relVx * relVx + relVy * relVy) in
  validatePhysicalQuantity relV 0.0 200.0 "Relative velocity" ;;;
  let currentVelocity := Vector3D_xy (vx st) (vy st) in
  let timeStep := adaptiveTimeStep st relV in
  v <- updateVelocity st relVx relVy relV timeStep ;;
  let '(vx', vy') := v in
  let x' := x st + vx' * timeStep in
  let y' := y st + vy' * timeStep in
  validateTrajectoryPoint (mkTrajectoryPoint x' y') 1000.0 ;;;
  let traj := recordPoint (r_trajectory st) x' y' in
  let apex := if r_apex st <? y' then y' else r_apex st in
  ret {| vx := vx'; vy := vy'; x := x'; y := y';
         prevY := prevY;
         prevTimeStep := timeStep;
         prevVelocity := currentVelocity;
         timeStep := timeStep;
         iterationCount := iterationCount st;
         r_trajectory := traj;
         r_apex := apex |}.

(** The loop condition
    [(y >= 0.0 || result.trajectory.empty()) && iterationCount++ < MAX_ITERATIONS]:
    the increment happens only when the left operand is true. *)
Definition loop_cond (st : LoopState) : bool * LoopState :=
  if (0.0 <=? y st) || empty (r_trajectory st) then
    ((iterationCount st <? MAX_ITERATIONS)%Z,
     {| vx := vx st; vy := vy st; x := x st; y := y st;
        prevY := prevY st;
        prevTimeStep := prevTimeStep st;
        prevVelocity := prevVelocity st;
        timeStep := timeStep st;
        iterationCount := (iterationCount st + 1)%Z;
        r_trajectory := r_trajectory st;
        r_apex := r_apex st |})
  else (false, st).

(** The [while] loop.  [fuel] bounds the number of iterations of the body;
    [MAX_ITERATIONS] of it is always enough ([loop_fuel_enough]). *)
Fixpoint loop (fuel : nat) (st : LoopState) : exc LoopState :=
  let '(c, st1) := loop_cond st in
  if c then
    match fuel with
    | O => ret st1
    | S fuel' => st2 <- loop_body st1 ;; loop fuel' st2
    end
  else ret st1.

(** Lines 33-55: the state when the loop is entered. *)
Definition initial_state : LoopState :=
  let angleRad := launchAngle * M_PI / 180.0 in
  let vx := initialSpeed * cos angleRad in
  let vy := initialSpeed * sin angleRad in
  {| vx := vx; vy := vy; x := 0.0; y := 0.0;
     prevY := 0.0;
     prevTimeStep := BASE_TIMESTEP;
     prevVelocity := Vector3D_xy vx vy;
     timeStep := MIN_TIMESTEP;
     iterationCount := 0;
     r_trajectory := push_back [] (mkTrajectoryPoint 0.0 0.0);
     r_apex := 0.0 |}.

(** Lines 188-193: the last recorded point is moved onto the ground when the
    last step crossed it. *)
Definition interpolateFinalPoint (st : LoopState) : list TrajectoryPoint :=
  if negb (empty (r_trajectory st)) && (y st <? 0.0) && (0.0 <? prevY st) then
    let t := (- prevY st) / (y st - prevY st) in
    let x := pt_x (back (r_trajectory st)) - t * vx st * timeStep st in
    set_back (r_trajectory st) (mkTrajectoryPoint x 0.0)
  else r_trajectory st.

(** Lines 180-198: what follows the loop. *)
Definition finish (st : LoopState) : TrajectoryResultWithStatus :=
  if (MAX_ITERATIONS <=? iterationCount st)%Z then
    mkTrajectoryResultWithStatus ConvergenceFailure
      "Trajectory calculation failed to converge within maximum iterations" None
  else
    let traj := interpolateFinalPoint st in
    mkTrajectoryResultWithStatus Success ""
      (Some {| trajectory := traj; distance := pt_x (back traj); apex := r_apex st |}).

(** The [try] block. *)
Definition try_block : exc TrajectoryResultWithStatus :=
  validateLaunchParameters initialSpeed launchAngle spinRate windSpeed windAngle ;;;
  st <- loop (Z.to_nat MAX_ITERATIONS) initial_state ;;
  ret (finish st).

Definition calculateTrajectoryWithValidation : TrajectoryResultWithStatus :=
  match try_block with
  | inr r => r
  | inl (PhysicsValidationError what) =>
      mkTrajectoryResultWithStatus InvalidInput what None
  | inl (StdException what) =>
      mkTrajectoryResultWithStatus CalculationError ("Calculation error: " ++ what)%string None
  end.

(** The legacy entry point.  [*result.result] is defined only when the
    optional holds a value; [None] stands for the undefined dereference. *)
Definition calculateTrajectory : option TrajectoryResult :=
  let res := calculateTrajectoryWithValidation in
  if isSuccess res then result res
  else Some TrajectoryResult_default.

End Integrator.


(** * Predicates used in the statements *)

(** A value that is a zero or NaN: what [0 * e] can be. *)
Definition zero_or_nan (v : float) : Prop :=
  match Prim2SF v with
  | S754_zero _ | S754_nan => True
  | _ => False
  end.

(** The computation raises nothing but [PhysicsValidationError]. *)
Definition raises_only_validation {A : Type} (c : exc A) : Prop :=
  match c with
  | inl (StdException _) => False
  | _ => True
  end.

(** The condition under which [validateTrajectoryPoint] returns normally. *)
Definition validPoint (p : TrajectoryPoint) : bool :=
  isfinite (pt_x p) && isfinite (pt_y p)
  && negb (pt_x p <? 0.0) && negb (1000.0 <? pt_x p)
  && negb (pt_y p <? -0.1) && negb (500.0 <? pt_y p).

(** The left operand of the loop condition: the ball is not below the
    ground (or nothing was recorded yet). *)
Definition ground_test (st : LoopState) : bool :=
  (0.0 <=? y st) || empty (r_trajectory st).

(** What holds of the loop state at every evaluation of the loop condition. *)
Record Inv (st : LoopState) : Prop := mkInv {
  inv_head : exists rest, r_trajectory st = mkTrajectoryPoint 0.0 0.0 :: rest;
  inv_valid : Forall (fun p => validPoint p = true) (r_trajectory st);
  inv_position : validPoint (mkTrajectoryPoint (x st) (y st)) = true;
  inv_above : Forall (fun p => (0.0 <=? pt_y p) = true) (removelast (r_trajectory st));
  inv_last : (0.0 <=? pt_y (back (r_trajectory st))) = true \/
             back (r_trajectory st) = mkTrajectoryPoint (x st) (y st);
  inv_prevY : (0.0 <=? prevY st) = true;
  inv_len : (0.0 <? prevY st) = true -> (2 <= length (r_trajectory st))%nat;
  inv_near : back (r_trajectory st) = mkTrajectoryPoint (x st) (y st) \/
             pt_y (back (r_trajectory st)) = prevY st \/
             (0.1 <? abs (prevY st - pt_y (back (r_trajectory st)))) = false;
  inv_step : pt_y (back (r_trajectory st)) = y st \/
             (0.1 <? abs (y st - pt_y (back (r_trajectory st)))) = false
}.

(** ** The C library

    What ISO C (Annex F) fixes exactly at the arguments below: [exp(±0) = 1],
    [cos(+0) = 1], [sin(+0) = +0], [pow(+1, y) = 1] for every [y] and
    [pow(+0, y) = +0] for [y > 0]. *)
Record AnnexF (libm : Libm) : Prop := mkAnnexF {
  exp_pos_zero : c_exp libm zero = one;
  exp_neg_zero : c_exp libm neg_zero = one;
  cos_pos_zero : c_cos libm zero = one;
  sin_pos_zero : c_sin libm zero = zero;
  pow_one_base : forall b, c_pow libm one b = one;
  pow_zero_base : forall b, (zero <? b) = true -> c_pow libm zero b = zero
}.

(** [SpinAxis()]: the default spin axis. *)
Definition noSpinAxis : SpinAxis := mkSpinAxis 0.0 0.0.

(** The state in which the run from a standstill leaves the loop. *)
Definition standstill_landed : LoopState :=
  {| vx := 0.0; vy := -0.0023544; x := 0.0; y := -5.6505599999999995e-07; prevY := 0.0;
     prevTimeStep := 0.00023999999999999998; prevVelocity := Vector3D_xy 0.0 0.0;
     timeStep := 0.00023999999999999998; iterationCount := 1;
     r_trajectory := [mkTrajectoryPoint 0.0 0.0;
                      mkTrajectoryPoint 0.0 (-5.6505599999999995e-07)];
     r_apex := 0.0 |}.

(** ** A reference implementation of the C library functions

    Not part of the repository.  Argument reduction followed by a truncated
    series, in binary64; the results agree with the usual correctly rounded
    values to a few units in the last place ([libm_ref_samples]). *)
Module RefLibm.

Definition ln2_hi : float := 6.93147180369123816490e-01.
Definition ln2_lo : float := 1.90821492927058770002e-10.
Definition inv_ln2 : float := 1.44269504088896338700e+00.
Definition pio2_1 : float := 1.57079632673412561417e+00.
Definition pio2_2 : float := 6.07710050630396597660e-11.
Definition pio2_3 : float := 2.02226624871116645580e-21.
Definition pio2_3t : float := 8.47842766036889956997e-32.
Definition inv_pio2 : float := 6.36619772367581382433e-01.

(** The integer value of a float that holds an integer. *)
Definition to_Z (f : float) : Z :=
  match Prim2SF f with
  | S754_finite s m e => cond_Zopp s (Z.shiftl (Zpos m) e)
  | _ => 0%Z
  end.

(** Nearest integer, for [|v| < 2^51]. *)
Definition round_int (v : float) : float := (v + 0x1.8p52) - 0x1.8p52.

(** [1 + r/i (1 + r/(i+1) (1 + ...))], [n] terms. *)
Fixpoint exp_poly (n : nat) (i r : float) : float :=
  match n with
  | O => 1
  | S n' => 1 + r / i * exp_poly n' (i + 1) r
  end.

Definition exp (a : float) : float :=
  if is_nan a then nan
  else if 709.782712893384 <? a then infinity
  else if a <? -745.2 then 0
  else
    let kf := round_int (a * inv_ln2) in
    let r := (a - kf * ln2_hi) - kf * ln2_lo in
    Z.ldexp (exp_poly 18 1 r) (to_Z kf).

(** [1 - q/(i(i+1)) (1 - q/((i+2)(i+3)) (1 - ...))], [n] terms, [q = r^2]. *)
Fixpoint trig_poly (n : nat) (i q : float) : float :=
  match n with
  | O => 1
  | S n' => 1 - q / (i * (i + 1)) * trig_poly n' (i + 2) q
  end.

Definition sin_kernel (r : float) : float := r * trig_poly 12 2 (r * r).
Definition cos_kernel (r : float) : float := trig_poly 12 1 (r * r).

(** Reduction to [[-pi/4, pi/4]]: the quadrant and the remainder. *)
Definition reduce (a : float) : Z * float :=
  let kf := round_int (a * inv_pio2) in
  let r := (((a - kf * pio2_1) - kf * pio2_2) - kf * pio2_3) - kf * pio2_3t in
  ((to_Z kf mod 4)%Z, r).

Definition sin (a : float) : float :=
  if negb (is_finite a) then nan
  else if is_zero a then a
  else
    let '(k, r) := reduce a in
    match k with
    | 0%Z => sin_kernel r
    | 1%Z => cos_kernel r
    | 2%Z => - sin_kernel r
    | _ => - cos_kernel r
    end.

Definition cos (a : float) : float :=
  if negb (is_finite a) then nan
  else
    let '(k, r) := reduce a in
    match k with
    | 0%Z => cos_kernel r
    | 1%Z => - sin_kernel r
    | 2%Z => - cos_kernel r
    | _ => sin_kernel r
    end.

(** [1/i + q (1/(i+2) + q (...))], [n] terms. *)
Fixpoint atanh_poly (n : nat) (i q : float) : float :=
  match n with
  | O => 0
  | S n' => 1 / i + q * atanh_poly n' (i + 2) q
  end.

(** Natural logarithm of a positive finite number. *)
Definition ln (a : float) : float :=
  let '(m, e) := Z.frexp a in
  let '(m, e) := if m <? 0.70710678118654752 then (2 * m, (e - 1)%Z) else (m, e) in
  let s := (m - 1) / (m + 1) in
  let ef := of_uint63 (Uint63.of_Z (Z.abs e)) in
  let ef := if (e <? 0)%Z then - ef else ef in
  (ef * ln2_hi) + ((2 * s * atanh_poly 14 1 (s * s)) + ef * ln2_lo).

(** [pow] for the bases that are not negative, the only ones the code uses;
    NaN for a negative base. *)
Definition pow (a b : float) : float :=
  if is_zero b then 1
  else if a =? 1 then 1
  else if is_nan a || is_nan b then nan
  else if a <? 0 then nan
  else if is_zero a then (if 0 <? b then 0 else infinity)
  else if is_infinity a then (if 0 <? b then infinity else 0)
  else exp (b * ln a).

End RefLibm.

Definition libm_ref : Libm := {|
  c_exp := RefLibm.exp;
  c_sin := RefLibm.sin;
  c_cos := RefLibm.cos;
  c_pow := RefLibm.pow
|}.

(** ** Predicates on trajectories *)



(** * The force models over the real numbers

    The same expressions as [calculateDragCoefficient] and
    [calculateSpinDecay] in physics.cpp, read in exact arithmetic:
    a [double] is a real number and [exp] is the exponential function. *)
Module Ideal.

Local Open Scope R_scope.

Definition BASE_DRAG_COEFFICIENT : R := 47 / 100.
Definition CRITICAL_REYNOLDS : R := 40000.
Definition TURBULENT_REYNOLDS : R := 400000.
Definition SPIN_DECAY_RATE : R := 45 / 1000.

Definition calculateDragCoefficient (reynoldsNumber : R) : R :=
  if Rlt_dec reynoldsNumber CRITICAL_REYNOLDS then
    BASE_DRAG_COEFFICIENT
  else if Rlt_dec TURBULENT_REYNOLDS reynoldsNumber then
    BASE_DRAG_COEFFICIENT * (5 / 10)
  else
    let t := (reynoldsNumber - CRITICAL_REYNOLDS) /
             (TURBULENT_REYNOLDS - CRITICAL_REYNOLDS) in
    BASE_DRAG_COEFFICIENT * (1 - (5 / 10) * t).

Definition calculateSpinDecay (initialSpin time : R) : R :=
  initialSpin * exp (- SPIN_DECAY_RATE * time).

End Ideal.

(** The state in which the loop is left by the launch (3.4646 m/s,
    45 degrees, 2000 rpm, no wind), run with [libm_ref]. *)
Definition lastIterationLanding_state :=
  Eval vm_compute in
    match loop libm_ref 3.4646 2000.0 0.0 0.0 noSpinAxis (Z.to_nat MAX_ITERATIONS)
            (initial_state libm_ref 3.4646 45.0) with
    | inr st => st
    | inl _ => standstill_landed
    end.

(** * Further code and predicates *)

(** ** main.cpp *)

Record SimulationParams : Type := mkSimulationParams {
  sp_initialSpeed : float;
  sp_launchAngle : float;
  sp_spinRate : float;
  sp_windSpeed : float;
  sp_windAngle : float;
  sp_spinAxis : SpinAxis
}.

(** [SimulationParams::validate]. *)
Definition SimulationParams_validate (params : SimulationParams) : bool :=
  (0 <? sp_initialSpeed params)
  && (-90 <=? sp_launchAngle params) && (sp_launchAngle params <=? 90)
  && (0 <=? sp_spinRate params)
  && (0 <=? sp_windSpeed params)
  && (0 <=? sp_windAngle params) && (sp_windAngle params <=? 360).

(** [TrajectorySimulator::runSimulation]. *)
Definition runSimulation (libm : Libm) (params : SimulationParams)
    : TrajectoryResultWithStatus :=
  calculateTrajectoryWithValidation libm
    (sp_initialSpeed params) (sp_launchAngle params) (sp_spinRate params)
    (sp_windSpeed params) (sp_windAngle params) (sp_spinAxis params).

(** [TrajectorySimulator::createDefaultParams]. *)
Definition createDefaultParams : SimulationParams :=
  mkSimulationParams 70.0 12.0 3000.0 10.0 45.0 noSpinAxis.

(** [SimulationManager::run], without what it prints: the exit code. *)
Definition SimulationManager_run (libm : Libm) : Z :=
  let params := createDefaultParams in
  if negb (SimulationParams_validate params) then 1%Z
  else
    let trajectoryResult := runSimulation libm params in
    if negb (isSuccess trajectoryResult) then 1%Z
    else 0%Z.

(** ** Predicates *)

(** Not NaN. *)
Definition ordered (v : float) : bool := v =? v.

(** NaN, or a number of the closed interval from [lo] to [hi]. *)
Definition nan_or_between (lo hi v : float) : bool :=
  negb (ordered v) || ((lo <=? v) && (v <=? hi)).

(** The parameter ranges of [validateLaunchParameters]. *)
Definition launch_accepts (initialSpeed launchAngle spinRate windSpeed windAngle : float)
    : bool :=
  nan_or_between 0.0 100.0 initialSpeed
  && nan_or_between (-90.0) 90.0 launchAngle
  && nan_or_between 0.0 10000.0 spinRate
  && nan_or_between 0.0 50.0 windSpeed
  && nan_or_between 0.0 360.0 windAngle.

(** The exception, if any, carries a message that is not empty. *)
Definition raises_with_message {A : Type} (c : exc A) : Prop :=
  match c with
  | inl (PhysicsValidationError what) => what <> ""%string
  | inl (StdException what) => what <> ""%string
  | inr _ => True
  end.

(** Every message a [PhysicsValidationError] is constructed with on the way
    through [calculateTrajectoryWithValidation]. *)
Definition quantity_names : list string :=
  [ "Relative velocity"; "Reynolds number"; "Drag coefficient"; "Air density";
    "Drag force"; "Magnus force"; "Drag acceleration X"; "Drag acceleration Y";
    "Magnus acceleration X"; "Magnus acceleration Y" ]%string.

Definition validation_messages : list string :=
  ([ "Initial speed cannot be negative";
     "Initial speed exceeds maximum physical limit";
     "Launch angle must be between -90 and 90 degrees";
     "Spin rate cannot be negative";
     "Spin rate exceeds maximum physical limit";
     "Wind speed cannot be negative";
     "Wind speed exceeds maximum expected value";
     "Wind angle must be between 0 and 360 degrees";
     "Non-finite values in trajectory calculation";
     "Trajectory point X coordinate out of bounds";
     "Trajectory point Y coordinate out of bounds" ]%string
   ++ map (fun name => name ++ " calculation resulted in non-finite value")%string
        quantity_names
   ++ map (fun name => name ++ " out of valid range")%string quantity_names)%list.

(** The exception, if any, is a [PhysicsValidationError] with one of the
    messages above. *)
Definition raises_known_message {A : Type} (c : exc A) : Prop :=
  match c with
  | inl (PhysicsValidationError what) => In what validation_messages
  | inl (StdException _) => False
  | inr _ => True
  end.

(** The test under which [recordPoint] keeps a point [q] after [p]. *)
Definition far_apart (p q : TrajectoryPoint) : bool :=
  (0.1 <? abs (pt_x q - pt_x p)) || (0.1 <? abs (pt_y q - pt_y p)).

Fixpoint chain_far (p : TrajectoryPoint) (v : list TrajectoryPoint) : Prop :=
  match v with
  | [] => True
  | q :: rest => far_apart p q = true /\ chain_far q rest
  end.

(** From the second point on, each point is [far_apart] from the one before. *)
Definition decimated (v : list TrajectoryPoint) : Prop :=
  match v with
  | _ :: p :: rest => chain_far p rest
  | _ => True
  end.

(** What holds, besides [Inv], at every evaluation of the loop condition. *)
Record Inv2 (st : LoopState) : Prop := mkInv2 {
  inv2_size : (Z.of_nat (length (r_trajectory st)) <= iterationCount st + 1)%Z;
  inv2_two : (2 <= length (r_trajectory st))%nat \/ (0.0 <=? y st) = true;
  inv2_apex_lo : (0.0 <=? r_apex st) = true;
  inv2_apex_hi : (r_apex st <=? 500.0) = true;
  inv2_apex_all : Forall (fun p => (pt_y p <=? r_apex st) = true) (r_trajectory st);
  inv2_decimated : decimated (r_trajectory st)
}.

(** ** The temperature profile over the real numbers

    [findLayerIndex], [getLayer] and [getTemperature] of atmosphere.cpp read
    in exact arithmetic, with the same table. *)
Module IdealAtmosphere.

Local Open Scope R_scope.

Record AtmosphericLayer : Type := mkAtmosphericLayer {
  baseAltitude : R;
  temperature : R;
  pressure : R;
  lapseRate : R
}.

Definition layers : list AtmosphericLayer :=
  [ mkAtmosphericLayer 0 (28815 / 100) 101325 (- (65 / 10000));
    mkAtmosphericLayer 11000 (21665 / 100) (226321 / 10) 0;
    mkAtmosphericLayer 20000 (21665 / 100) (547489 / 100) (1 / 1000);
    mkAtmosphericLayer 32000 (22865 / 100) (868019 / 1000) (28 / 10000);
    mkAtmosphericLayer 47000 (27065 / 100) (110906 / 1000) 0 ].

Fixpoint findLayerIndex_loop (rest : list AtmosphericLayer) (i : nat)
    (altitude : R) : option nat :=
  match rest with
  | [] => None
  | l :: rest' =>
      if Rlt_dec altitude (baseAltitude l) then Some (i - 1)%nat
      else findLayerIndex_loop rest' (S i) altitude
  end.

Definition findLayerIndex (altitude : R) : nat :=
  match findLayerIndex_loop (tl layers) 1 altitude with
  | Some i => i
  | None => (length layers - 1)%nat
  end.

Definition getLayer (altitude : R) : AtmosphericLayer :=
  nth (findLayerIndex altitude) layers (mkAtmosphericLayer 0 0 0 0).

Definition getTemperature (altitude : R) : R :=
  let layer := getLayer altitude in
  let deltaH := altitude - baseAltitude layer in
  temperature layer + lapseRate layer * deltaH.

End IdealAtmosphere.

(** ** The Magnus force over the real numbers

    [calculateLiftCoefficient] and [calculateMagnusForce] of physics.cpp read
    in exact arithmetic, with the constants of physics.h as they are
    written; [sin], [cos] and [exp] are the real functions. *)
Module IdealMagnus.

Local Open Scope R_scope.

Definition M_PI : R := 314159265358979323846 / 100000000000000000000.
Definition STANDARD_AIR_DENSITY : R := 1225 / 1000.
Definition BALL_RADIUS : R := 213 / 10000.
Definition BALL_AREA : R := M_PI * BALL_RADIUS * BALL_RADIUS.
Definition BASE_LIFT_COEFFICIENT : R := 25 / 100.
Definition SURFACE_ROUGHNESS : R := 14 / 10000.
Definition MAX_LIFT_COEFFICIENT : R := 35 / 100.

Definition std_min (a b : R) : R := if Rlt_dec b a then b else a.

Definition calculateLiftCoefficient (spinRate velocity : R) : R :=
  let spinFactor := (spinRate * M_PI / 30) * BALL_RADIUS / velocity in
  let roughnessEffect := 1 + (SURFACE_ROUGHNESS / BALL_RADIUS) in
  let liftCoef := BASE_LIFT_COEFFICIENT * spinFactor * roughnessEffect in
  std_min liftCoef MAX_LIFT_COEFFICIENT.

Record SpinAxis : Type := mkSpinAxis { tilt : R; direction : R }.

Definition calculateMagnusForce (spinRate velocity radius : R) (spinAxis : SpinAxis)
    (time : R) : R :=
  let currentSpin := Ideal.calculateSpinDecay spinRate time in
  let tiltRad := tilt spinAxis * M_PI / 180 in
  let directionRad := direction spinAxis * M_PI / 180 in
  let verticalSpin := currentSpin * cos tiltRad in
  let horizontalSpin := currentSpin * sin tiltRad in
  let liftCoef := calculateLiftCoefficient currentSpin velocity in
  let forceMagnitude :=
    (5 / 10) * STANDARD_AIR_DENSITY * BALL_AREA * liftCoef * velocity * velocity in
  let verticalForce := forceMagnitude * (verticalSpin / currentSpin) in
  let horizontalForce := forceMagnitude * (horizontalSpin / currentSpin) in
  verticalForce * cos directionRad + horizontalForce * sin directionRad.

(** The local [forceMagnitude] of [calculateMagnusForce], for a spin that
    has decayed to [currentSpin]. *)
Definition forceMagnitude (currentSpin velocity : R) : R :=
  (5 / 10) * STANDARD_AIR_DENSITY * BALL_AREA *
  calculateLiftCoefficient currentSpin velocity * velocity * velocity.

End IdealMagnus.
(** * Facts about binary64 arithmetic

    Derived from the specification of the primitive operations
    ([FloatAxioms]) by case analysis on the class of the operands. *)

Section FloatFacts.

(** The order [SFcompare] is decided on sign, exponent and mantissa. *)
Ltac order_cases :=
  repeat match goal with
         | |- context [(?a ?= ?b)%Z] => destruct (Z.compare_spec a b)
         | H : context [(?a ?= ?b)%Z] |- _ => destruct (Z.compare_spec a b)
         | |- context [Pos.compare_cont Eq ?a ?b] =>
             change (Pos.compare_cont Eq a b) with (Pos.compare a b);
             destruct (Pos.compare_spec a b)
         | H : context [Pos.compare_cont Eq ?a ?b] |- _ =>
             change (Pos.compare_cont Eq a b) with (Pos.compare a b) in H;
             destruct (Pos.compare_spec a b)
         end;
  simpl in *; subst; try reflexivity; try discriminate; try lia.

Ltac sf_cases :=
  intros;
  repeat match goal with
         | s : spec_float |- _ => destruct s as [[|]|[|]| |[|] ? ?]
         end;
  simpl in *; try reflexivity; try discriminate; order_cases.

Lemma SFcompare_lt_trans (a b c : spec_float) :
  SFcompare a b = Some Lt -> SFcompare b c = Some Lt -> SFcompare a c = Some Lt.
Proof. revert a b c. sf_cases. Qed.

Lemma SFcompare_lt_asym (a b : spec_float) :
  SFcompare a b = Some Lt -> SFcompare b a = Some Gt.
Proof. revert a b. sf_cases. Qed.

Lemma SFcompare_eq_sym (a b : spec_float) :
  SFcompare a b = Some Eq -> SFcompare b a = Some Eq.
Proof. revert a b. sf_cases. Qed.

Lemma ltb_compare (a b : float) :
  (a <? b) = true <-> SFcompare (Prim2SF a) (Prim2SF b) = Some Lt.
Proof.
  rewrite FloatAxioms.ltb_spec. unfold SFltb.
  destruct (SFcompare (Prim2SF a) (Prim2SF b)) as [[ | | ]|]; split; intros H;
    try discriminate; reflexivity.
Qed.

Lemma leb_compare (a b : float) :
  (a <=? b) = true <->
  SFcompare (Prim2SF a) (Prim2SF b) = Some Lt \/
  SFcompare (Prim2SF a) (Prim2SF b) = Some Eq.
Proof.
  rewrite FloatAxioms.leb_spec. unfold SFleb.
  destruct (SFcompare (Prim2SF a) (Prim2SF b)) as [[ | | ]|]; split; intros H;
    try discriminate; auto; destruct H; discriminate.
Qed.

Lemma ltb_trans (a b c : float) :
  (a <? b) = true -> (b <? c) = true -> (a <? c) = true.
Proof.
  rewrite !ltb_compare. apply SFcompare_lt_trans.
Qed.

(** [b <= a] excludes [a < b]. *)
Lemma leb_not_ltb (a b : float) : (b <=? a) = true -> (a <? b) = false.
Proof.
  intros H. apply leb_compare in H.
  destruct (a <? b) eqn:E; [|reflexivity].
  apply ltb_compare in E.
  destruct H as [H|H].
  - apply SFcompare_lt_asym in H. congruence.
  - apply SFcompare_eq_sym in H. congruence.
Qed.

(** [std::isfinite]: neither NaN nor an infinity. *)
Lemma isfinite_spec (v : float) :
  isfinite v =
  match Prim2SF v with
  | S754_zero _ | S754_finite _ _ _ => true
  | _ => false
  end.
Proof.
  unfold isfinite, is_finite, is_nan, is_infinity.
  rewrite !FloatAxioms.eqb_spec, FloatAxioms.abs_spec.
  change (Prim2SF infinity) with (S754_infinity false).
  unfold SFeqb.
  destruct (Prim2SF v) as [[|]|[|]| |[|] m e]; simpl; try reflexivity;
    rewrite Z.compare_refl; change (Pos.compare_cont Eq m m) with (Pos.compare m m);
    rewrite Pos.compare_refl; reflexivity.
Qed.

Lemma Prim2SF_nan (v : float) : Prim2SF v = S754_nan -> v = nan.
Proof. intros H. apply Prim2SF_inj. rewrite H. reflexivity. Qed.

Lemma isfinite_nan : isfinite nan = false.
Proof. reflexivity. Qed.


Lemma zero_or_nan_mul_l (a b : float) : zero_or_nan a -> zero_or_nan (a * b).
Proof.
  unfold zero_or_nan. rewrite FloatAxioms.mul_spec. unfold SF64mul, SFmul.
  destruct (Prim2SF a); try tauto; destruct (Prim2SF b); tauto.
Qed.

Lemma zero_or_nan_div (a b : float) : zero_or_nan a -> zero_or_nan b -> a / b = nan.
Proof.
  unfold zero_or_nan. intros Ha Hb. apply Prim2SF_nan.
  rewrite FloatAxioms.div_spec. unfold SF64div, SFdiv.
  destruct (Prim2SF a); try tauto; destruct (Prim2SF b); tauto.
Qed.

Lemma mul_nan_r (a : float) : a * nan = nan.
Proof.
  apply Prim2SF_nan. rewrite FloatAxioms.mul_spec. change (Prim2SF nan) with S754_nan.
  unfold SF64mul, SFmul. destruct (Prim2SF a); reflexivity.
Qed.

Lemma mul_nan_l (a : float) : nan * a = nan.
Proof.
  apply Prim2SF_nan. rewrite FloatAxioms.mul_spec. reflexivity.
Qed.

Lemma add_nan_l (a : float) : nan + a = nan.
Proof.
  apply Prim2SF_nan. rewrite FloatAxioms.add_spec. reflexivity.
Qed.






(** [a] is not below [d], and [c < d]: [a] is not below [c]. *)
Lemma ltb_false_below (a c d : float) :
  (c <? d) = true -> (a <? d) = false -> (a <? c) = false.
Proof.
  intros Hcd Had. destruct (a <? c) eqn:E; [|reflexivity].
  rewrite (ltb_trans a c d E Hcd) in Had. discriminate.
Qed.




(** A positive number is neither a zero nor NaN. *)
Lemma positive_not_zero (b : float) :
  (0 <? b) = true -> is_zero b = false /\ is_nan b = false.
Proof.
  unfold is_zero, is_nan.
  rewrite FloatAxioms.ltb_spec, !FloatAxioms.eqb_spec.
  change (Prim2SF 0) with (S754_zero false). change (Prim2SF zero) with (S754_zero false).
  unfold SFltb, SFeqb.
  destruct (Prim2SF b) as [[|]|[|]| |[|] m e]; simpl; try discriminate; intros _;
    (split; [reflexivity|]);
    rewrite ?Z.compare_refl, ?Pos.compare_cont_refl; reflexivity.
Qed.


End FloatFacts.

(** Further order facts used for the last trajectory point. *)
Section MoreFloatFacts.

Lemma negative_of_finite_not_nonneg (v : float) :
  isfinite v = true -> (0 <=? v) = false -> (v <? 0) = true.
Proof.
  rewrite isfinite_spec, FloatAxioms.leb_spec, FloatAxioms.ltb_spec.
  change (Prim2SF 0) with (S754_zero false).
  unfold SFleb, SFltb.
  destruct (Prim2SF v) as [[|]|[|]| |[|] m e]; simpl; intros; congruence.
Qed.


End MoreFloatFacts.

(** * The error monad *)

Lemma bind_inr {A B : Type} (c : exc A) (k : A -> exc B) (b : B) :
  bind c k = inr b -> exists a, c = inr a /\ k a = inr b.
Proof.
  destruct c as [e|a]; simpl; intros H; [discriminate|]. exists a. auto.
Qed.


Lemma rov_ret {A : Type} (a : A) : raises_only_validation (ret a).
Proof. exact I. Qed.

Lemma rov_bind {A B : Type} (c : exc A) (k : A -> exc B) :
  raises_only_validation c -> (forall a, raises_only_validation (k a)) ->
  raises_only_validation (bind c k).
Proof.
  destruct c as [[w|w]|a]; simpl; auto.
Qed.

Lemma rov_validateLaunchParameters (a b c d e : float) :
  raises_only_validation (validateLaunchParameters a b c d e).
Proof.
  unfold validateLaunchParameters.
  repeat match goal with |- context [if ?t then _ else _] => destruct t end;
    exact I.
Qed.

Lemma rov_validateTrajectoryPoint (p : TrajectoryPoint) (d : float) :
  raises_only_validation (validateTrajectoryPoint p d).
Proof.
  unfold validateTrajectoryPoint.
  repeat match goal with |- context [if ?t then _ else _] => destruct t end;
    exact I.
Qed.

Lemma rov_validatePhysicalQuantity (v lo hi : float) (name : string) :
  raises_only_validation (validatePhysicalQuantity v lo hi name).
Proof.
  unfold validatePhysicalQuantity.
  repeat match goal with |- context [if ?t then _ else _] => destruct t end;
    exact I.
Qed.


Lemma validateTrajectoryPoint_inr (p : TrajectoryPoint) (u : unit) :
  validateTrajectoryPoint p 1000.0 = inr u -> validPoint p = true.
Proof.
  unfold validateTrajectoryPoint, validPoint.
  destruct (isfinite (pt_x p)), (isfinite (pt_y p)); simpl; try discriminate.
  destruct (pt_x p <? 0.0), (1000.0 <? pt_x p); simpl; try discriminate.
  destruct (pt_y p <? -0.1), (500.0 <? pt_y p); simpl; try discriminate.
  reflexivity.
Qed.

Lemma validPoint_inv (p : TrajectoryPoint) :
  validPoint p = true ->
  isfinite (pt_x p) = true /\ isfinite (pt_y p) = true /\
  (pt_x p <? 0.0) = false /\ (1000.0 <? pt_x p) = false /\
  (pt_y p <? -0.1) = false /\ (500.0 <? pt_y p) = false.
Proof.
  unfold validPoint. rewrite !andb_true_iff, !negb_true_iff. tauto.
Qed.

(** * The vector of recorded points *)

Lemma back_push_back (v : list TrajectoryPoint) (p : TrajectoryPoint) :
  back (push_back v p) = p.
Proof. unfold back, push_back. apply last_last. Qed.

Lemma removelast_push_back (v : list TrajectoryPoint) (p : TrajectoryPoint) :
  removelast (push_back v p) = v.
Proof. unfold push_back. apply removelast_last. Qed.

Lemma recordPoint_cases (v : list TrajectoryPoint) (a b : float) :
  (recordPoint v a b = push_back v (mkTrajectoryPoint a b)) \/
  (recordPoint v a b = v /\ (2 <= length v)%nat /\
   (0.1 <? abs (a - pt_x (back v))) = false /\
   (0.1 <? abs (b - pt_y (back v))) = false).
Proof.
  unfold recordPoint.
  destruct (length v <? 2)%nat eqn:Hl; simpl; [left; reflexivity|].
  destruct (0.1 <? abs (a - pt_x (back v))) eqn:Ha; simpl; [left; reflexivity|].
  destruct (0.1 <? abs (b - pt_y (back v))) eqn:Hb; simpl; [left; reflexivity|].
  right. apply Nat.ltb_ge in Hl. auto.
Qed.

Lemma Forall_removelast {A : Type} (P : A -> Prop) (l : list A) :
  Forall P l -> Forall P (removelast l).
Proof.
  induction 1 as [|a l Ha Hl IH]; simpl; [constructor|].
  destruct l; [constructor|]. constructor; assumption.
Qed.

Lemma Forall_of_removelast_last {A : Type} (P : A -> Prop) (l : list A) (d : A) :
  l <> [] -> Forall P (removelast l) -> P (last l d) -> Forall P l.
Proof.
  intros Hne Hr Hl.
  rewrite (app_removelast_last d Hne).
  apply Forall_app. split; [assumption|]. constructor; [assumption|constructor].
Qed.

(** * The integrator: exceptions *)

Section IntegratorFacts.

Context (libm : Libm).
Context (initialSpeed launchAngle spinRate windSpeed windAngle : float)
        (spinAxis : SpinAxis).

Local Abbreviation the_body :=
  (loop_body libm initialSpeed spinRate windSpeed windAngle spinAxis).
Local Abbreviation the_loop :=
  (loop libm initialSpeed spinRate windSpeed windAngle spinAxis).
Local Abbreviation the_initial_state := (initial_state libm initialSpeed launchAngle).
Local Abbreviation the_try_block :=
  (try_block libm initialSpeed launchAngle spinRate windSpeed windAngle spinAxis).
Local Abbreviation the_result :=
  (calculateTrajectoryWithValidation libm initialSpeed launchAngle spinRate
     windSpeed windAngle spinAxis).

Lemma rov_updateVelocity (st : LoopState) (a b c d : float) :
  raises_only_validation (updateVelocity libm initialSpeed spinRate spinAxis st a b c d).
Proof.
  unfold updateVelocity.
  destruct (0.001 <? c); [|apply rov_ret].
  repeat (apply rov_bind; [apply rov_validatePhysicalQuantity|intros _]).
  apply rov_ret.
Qed.

Lemma rov_loop_body (st : LoopState) : raises_only_validation (the_body st).
Proof.
  unfold loop_body.
  destruct (calculateRelativeVelocity libm (vx st) (vy st) _ windAngle) as [relVx relVy].
  apply rov_bind; [apply rov_validatePhysicalQuantity|intros _].
  apply rov_bind; [apply rov_updateVelocity|intros [vx' vy']].
  apply rov_bind; [apply rov_validateTrajectoryPoint|intros _].
  apply rov_ret.
Qed.

Lemma rov_loop (fuel : nat) (st : LoopState) : raises_only_validation (the_loop fuel st).
Proof.
  revert st. induction fuel as [|fuel IH]; intros st; simpl;
    destruct (loop_cond st) as [[|] st1]; try apply rov_ret.
  apply rov_bind; [apply rov_loop_body|intros st2; apply IH].
Qed.

Lemma rov_try_block : raises_only_validation the_try_block.
Proof.
  unfold try_block.
  apply rov_bind; [apply rov_validateLaunchParameters|intros _].
  apply rov_bind; [apply rov_loop|intros st; apply rov_ret].
Qed.

(** The three shapes of the value returned. *)
Lemma result_cases :
  (exists what, the_try_block = inl (PhysicsValidationError what) /\
                the_result = mkTrajectoryResultWithStatus InvalidInput what None) \/
  (exists st, validateLaunchParameters initialSpeed launchAngle spinRate windSpeed windAngle
                = inr tt /\
              the_loop (Z.to_nat MAX_ITERATIONS) the_initial_state = inr st /\
              the_result = finish st).
Proof.
  unfold calculateTrajectoryWithValidation.
  pose proof rov_try_block as Hrov.
  destruct the_try_block as [[what|what]|r] eqn:Htry.
  - left. exists what. auto.
  - destruct Hrov.
  - right. unfold try_block in Htry.
    apply bind_inr in Htry. destruct Htry as [[] [Hv Htry]].
    apply bind_inr in Htry. destruct Htry as [st [Hl Hr]].
    exists st. inversion Hr. auto.
Qed.

(** * The integrator: the loop *)

Lemma loop_cond_true (st st1 : LoopState) :
  loop_cond st = (true, st1) ->
  ground_test st = true /\ (iterationCount st < MAX_ITERATIONS)%Z /\
  iterationCount st1 = (iterationCount st + 1)%Z /\
  x st1 = x st /\ y st1 = y st /\ prevY st1 = prevY st /\
  r_trajectory st1 = r_trajectory st.
Proof.
  unfold loop_cond, ground_test.
  destruct ((0.0 <=? y st) || empty (r_trajectory st)); intros H; inversion H; subst; simpl.
  rewrite H1. apply Z.ltb_lt in H1. auto 10.
Qed.

Lemma loop_cond_false (st st1 : LoopState) :
  loop_cond st = (false, st1) ->
  x st1 = x st /\ y st1 = y st /\ prevY st1 = prevY st /\
  r_trajectory st1 = r_trajectory st /\
  ((ground_test st1 = false /\ iterationCount st1 = iterationCount st) \/
   (ground_test st1 = true /\ (MAX_ITERATIONS <= iterationCount st)%Z /\
    iterationCount st1 = (iterationCount st + 1)%Z)).
Proof.
  unfold loop_cond, ground_test.
  destruct ((0.0 <=? y st) || empty (r_trajectory st)) eqn:Hg;
    intros H; inversion H; subst; simpl.
  - rewrite Hg. apply Z.ltb_ge in H1. auto 10.
  - rewrite Hg. auto 10.
Qed.

Lemma Inv_nonempty (st : LoopState) : Inv st -> r_trajectory st <> [].
Proof. intros [[rest Hr] _ _ _ _ _ _ _ _]. rewrite Hr. discriminate. Qed.

Lemma Inv_initial : Inv the_initial_state.
Proof.
  constructor; simpl.
  - exists []. reflexivity.
  - constructor; [reflexivity|constructor].
  - reflexivity.
  - constructor.
  - left. reflexivity.
  - reflexivity.
  - discriminate.
  - left. reflexivity.
  - left. reflexivity.
Qed.


Lemma Inv_transport (st st1 : LoopState) :
  x st1 = x st -> y st1 = y st -> prevY st1 = prevY st ->
  r_trajectory st1 = r_trajectory st -> Inv st -> Inv st1.
Proof.
  intros Hx Hy Hp Ht [H1 H2 H3 H4 H5 H6 H7 H8 H9].
  constructor; rewrite ?Hx, ?Hy, ?Hp, ?Ht; assumption.
Qed.

Lemma loop_body_inr (st st' : LoopState) :
  the_body st = inr st' ->
  iterationCount st' = iterationCount st /\
  prevY st' = y st /\
  validPoint (mkTrajectoryPoint (x st') (y st')) = true /\
  r_trajectory st' = recordPoint (r_trajectory st) (x st') (y st').
Proof.
  unfold loop_body.
  destruct (calculateRelativeVelocity libm (vx st) (vy st) _ windAngle) as [relVx relVy].
  intros H.
  apply bind_inr in H. destruct H as [[] [_ H]].
  apply bind_inr in H. destruct H as [[vx' vy'] [_ H]].
  apply bind_inr in H. destruct H as [[] [Hv H]].
  apply validateTrajectoryPoint_inr in Hv.
  inversion H; subst; simpl. auto.
Qed.

Lemma Inv_loop_body (st st' : LoopState) :
  Inv st -> ground_test st = true -> the_body st = inr st' -> Inv st'.
Proof.
  intros HI Hg Hb.
  pose proof (Inv_nonempty st HI) as Hne.
  destruct HI as [[rest Hhead] Hvalid Hpos Habove Hlast HprevY Hlen Hnear Hstep].
  apply loop_body_inr in Hb. destruct Hb as (_ & Hp & Hv & Ht).
  assert (Hy : (0.0 <=? y st) = true).
  { unfold ground_test in Hg. rewrite Hhead in Hg. simpl in Hg.
    rewrite orb_false_r in Hg. exact Hg. }
  assert (Hback : (0.0 <=? pt_y (back (r_trajectory st))) = true).
  { destruct Hlast as [Hl|Hl]; [exact Hl|]. rewrite Hl. exact Hy. }
  assert (Hall : Forall (fun p => (0.0 <=? pt_y p) = true) (r_trajectory st)).
  { apply Forall_of_removelast_last with (d := mkTrajectoryPoint 0 0); assumption. }
  destruct (recordPoint_cases (r_trajectory st) (x st') (y st'))
    as [Hr|(Hr & Hl2 & Hfx & Hfy)]; rewrite Hr in Ht.
  - constructor; rewrite ?Ht, ?Hp, ?back_push_back, ?removelast_push_back; auto.
    + rewrite Hhead. eexists. reflexivity.
    + apply Forall_app. split; [assumption|]. constructor; [assumption|constructor].
    + intros _. unfold push_back. rewrite length_app, Hhead. simpl. lia.
  - constructor; rewrite ?Ht, ?Hp; auto;
      try (eexists; exact Hhead); destruct Hstep as [Hs|Hs]; auto.
Qed.

Lemma Inv_loop_cond (st st1 : LoopState) (c : bool) :
  Inv st -> loop_cond st = (c, st1) -> Inv st1.
Proof.
  intros HI Hc. destruct c.
  - apply loop_cond_true in Hc. destruct Hc as (_ & _ & _ & Hx & Hy & Hp & Ht).
    apply (Inv_transport st); assumption.
  - apply loop_cond_false in Hc. destruct Hc as (Hx & Hy & Hp & Ht & _).
    apply (Inv_transport st); assumption.
Qed.

Lemma ground_test_transport (st st1 : LoopState) :
  y st1 = y st -> r_trajectory st1 = r_trajectory st -> ground_test st1 = ground_test st.
Proof. unfold ground_test. intros -> ->. reflexivity. Qed.

(** How the loop ends: the invariant holds of the final state, and either
    the ball is below the ground and the counter is at most [MAX_ITERATIONS],
    or the counter test failed and the counter is [MAX_ITERATIONS + 1]. *)
Lemma loop_exit (fuel : nat) :
  forall st st' : LoopState,
    Inv st ->
    (0 <= iterationCount st <= MAX_ITERATIONS)%Z ->
    (MAX_ITERATIONS <= Z.of_nat fuel + iterationCount st)%Z ->
    the_loop fuel st = inr st' ->
    Inv st' /\
    ((ground_test st' = false /\
      (iterationCount st <= iterationCount st' <= MAX_ITERATIONS)%Z) \/
     (ground_test st' = true /\ iterationCount st' = (MAX_ITERATIONS + 1)%Z)).
Proof.
  induction fuel as [|fuel IH]; intros st st' HI Hcnt Hfuel Hloop; simpl in Hloop;
    destruct (loop_cond st) as [[|] st1] eqn:Hc.
  - apply loop_cond_true in Hc. lia.
  - inversion Hloop; subst st'. split; [eapply Inv_loop_cond; eassumption|].
    apply loop_cond_false in Hc.
    destruct Hc as (_ & _ & _ & _ & [[Hg He]|(Hg & Hm & He)]); [left|right];
      split; try assumption; lia.
  - pose proof (Inv_loop_cond _ _ _ HI Hc) as HI1.
    apply loop_cond_true in Hc. destruct Hc as (Hg & Hlt & He & _ & Hy & _ & Ht).
    apply bind_inr in Hloop. destruct Hloop as [st2 [Hb Hloop]].
    assert (Hg1 : ground_test st1 = true).
    { rewrite (ground_test_transport st st1); assumption. }
    pose proof (Inv_loop_body _ _ HI1 Hg1 Hb) as HI2.
    apply loop_body_inr in Hb. destruct Hb as (He2 & _).
    destruct (IH st2 st' HI2) as [HI' Hexit]; try assumption; try lia.
    split; [assumption|].
    destruct Hexit as [[Hg' Hc']|Hcap]; [left|right; assumption].
    split; [assumption|lia].
  - inversion Hloop; subst st'. split; [eapply Inv_loop_cond; eassumption|].
    apply loop_cond_false in Hc.
    destruct Hc as (_ & _ & _ & _ & [[Hg He]|(Hg & Hm & He)]); [left|right];
      split; try assumption; lia.
Qed.

(** [MAX_ITERATIONS] units of fuel are enough: more fuel changes nothing. *)
Lemma loop_fuel_enough (fuel : nat) :
  forall st : LoopState,
    (MAX_ITERATIONS <= Z.of_nat fuel + iterationCount st)%Z ->
    the_loop (S fuel) st = the_loop fuel st.
Proof.
  induction fuel as [|fuel IH]; intros st Hfuel.
  - simpl. destruct (loop_cond st) as [[|] st1] eqn:Hc; [|reflexivity].
    apply loop_cond_true in Hc. lia.
  - change (the_loop (S (S fuel)) st) with
      (let '(c, st1) := loop_cond st in
       if c then st2 <- the_body st1 ;; the_loop (S fuel) st2 else ret st1).
    change (the_loop (S fuel) st) with
      (let '(c, st1) := loop_cond st in
       if c then st2 <- the_body st1 ;; the_loop fuel st2 else ret st1).
    destruct (loop_cond st) as [[|] st1] eqn:Hc; [|reflexivity].
    apply loop_cond_true in Hc. destruct Hc as (_ & _ & He & _).
    destruct (the_body st1) as [e|st2] eqn:Hb; [reflexivity|]. simpl.
    apply IH. apply loop_body_inr in Hb. lia.
Qed.

Lemma loop_fuel_irrelevant (extra : nat) :
  the_loop (extra + Z.to_nat MAX_ITERATIONS) the_initial_state =
  the_loop (Z.to_nat MAX_ITERATIONS) the_initial_state.
Proof.
  induction extra as [|extra IH]; [reflexivity|].
  rewrite <- IH. apply loop_fuel_enough.
  simpl iterationCount. rewrite Nat2Z.inj_add, Z2Nat.id by (unfold MAX_ITERATIONS; lia).
  lia.
Qed.

(** A run whose launch parameters validate and whose loop raises nothing. *)
Lemma run_finished (st : LoopState) :
  the_loop (Z.to_nat MAX_ITERATIONS) the_initial_state = inr st ->
  Inv st /\
  ((ground_test st = false /\ (0 <= iterationCount st <= MAX_ITERATIONS)%Z) \/
   (ground_test st = true /\ iterationCount st = (MAX_ITERATIONS + 1)%Z)).
Proof.
  intros Hl.
  apply (loop_exit (Z.to_nat MAX_ITERATIONS) the_initial_state st Inv_initial).
  - simpl. unfold MAX_ITERATIONS. lia.
  - simpl. unfold MAX_ITERATIONS. lia.
  - exact Hl.
Qed.

Lemma status_finish (st : LoopState) :
  status (finish st) =
  if (MAX_ITERATIONS <=? iterationCount st)%Z then ConvergenceFailure else Success.
Proof.
  unfold finish. destruct (MAX_ITERATIONS <=? iterationCount st)%Z; reflexivity.
Qed.


End IntegratorFacts.

(** * The trajectory of a successful run *)


Section FinalTrajectory.

Context (st : LoopState) (HI : Inv st) (Hg : ground_test st = false).

Lemma final_below_ground :
  (0.0 <=? y st) = false /\ (y st <? 0.0) = true /\
  isfinite (y st) = true /\ (y st <? -0.1) = false.
Proof.
  unfold ground_test in Hg. apply orb_false_iff in Hg. destruct Hg as [Hy _].
  destruct (validPoint_inv _ (inv_position st HI)) as (_ & Hf & _ & _ & Hl & _).
  simpl in Hf, Hl. split; [assumption|]. split; [|split; assumption].
  apply negative_of_finite_not_nonneg; assumption.
Qed.

Lemma interpolateFinalPoint_cases :
  ((0.0 <? prevY st) = true /\
   exists p rest px,
     r_trajectory st = p :: rest /\ rest <> [] /\
     interpolateFinalPoint st = (removelast (r_trajectory st) ++ [mkTrajectoryPoint px 0.0])%list) \/
  ((0.0 <? prevY st) = false /\ interpolateFinalPoint st = r_trajectory st).
Proof.
  destruct final_below_ground as (_ & Hneg & _).
  destruct (inv_head st HI) as [rest Hhead].
  unfold interpolateFinalPoint. rewrite Hneg, Hhead. simpl.
  destruct (0.0 <? prevY st) eqn:Hp; [left|right; auto].
  split; [reflexivity|].
  pose proof (inv_len st HI Hp) as Hlen. rewrite Hhead in Hlen.
  exists (mkTrajectoryPoint 0.0 0.0), rest. eexists.
  split; [reflexivity|]. split; [|unfold set_back; reflexivity].
  destruct rest; [simpl in Hlen; lia|discriminate].
Qed.

Lemma final_first_point :
  exists rest, interpolateFinalPoint st = mkTrajectoryPoint 0.0 0.0 :: rest.
Proof.
  destruct (inv_head st HI) as [rest Hhead].
  destruct interpolateFinalPoint_cases as [(_ & p & rest' & px & Hr & Hne & Hi)|[_ Hi]];
    rewrite Hi.
  - rewrite Hhead in Hr |- *. inversion Hr; subst.
    destruct rest' as [|q rest']; [contradiction|].
    eexists. simpl. reflexivity.
  - eexists. exact Hhead.
Qed.



End FinalTrajectory.

(** * Runs that reach the C library at special arguments only *)

Section SpecialRuns.

Context (libm : Libm) (HF : AnnexF libm).

Ltac annexF :=
  let E1 := fresh "E" in pose proof (exp_pos_zero libm HF) as E1;
  let E2 := fresh "E" in pose proof (exp_neg_zero libm HF) as E2;
  let E3 := fresh "E" in pose proof (cos_pos_zero libm HF) as E3;
  let E4 := fresh "E" in pose proof (sin_pos_zero libm HF) as E4;
  let E5 := fresh "E" in pose proof (pow_one_base libm HF) as E5;
  let E6 := fresh "E" in pose proof (pow_zero_base libm HF) as E6;
  cbv -[c_exp c_sin c_cos c_pow] in E1, E2, E3, E4, E5, E6;
  repeat (progress (cbv -[c_exp c_sin c_cos c_pow];
                    rewrite ?E1, ?E2, ?E3, ?E4, ?E5;
                    rewrite ?E6 by reflexivity));
  clear E1 E2 E3 E4 E5 E6.


Lemma loop_raise (a b c d : float) (ax : SpinAxis) (fuel : nat) (st st1 : LoopState)
    (e : exception) :
  loop_cond st = (true, st1) ->
  loop_body libm a b c d ax st1 = inl e ->
  loop libm a b c d ax (S fuel) st = inl e.
Proof. intros Hc Hb. simpl. rewrite Hc, Hb. reflexivity. Qed.


(** Launch at 50 m/s, level, without spin and without wind. *)
Lemma spinless_initial_state :
  initial_state libm 50.0 0.0 =
  {| vx := 50.0; vy := 0.0; x := 0.0; y := 0.0; prevY := 0.0;
     prevTimeStep := BASE_TIMESTEP; prevVelocity := Vector3D_xy 50.0 0.0;
     timeStep := MIN_TIMESTEP; iterationCount := 0;
     r_trajectory := [mkTrajectoryPoint 0.0 0.0]; r_apex := 0.0 |}.
Proof. annexF. reflexivity. Qed.

Lemma spinless_first_step :
  loop_body libm 50.0 0.0 0.0 0.0 noSpinAxis
    {| vx := 50.0; vy := 0.0; x := 0.0; y := 0.0; prevY := 0.0;
       prevTimeStep := BASE_TIMESTEP; prevVelocity := Vector3D_xy 50.0 0.0;
       timeStep := MIN_TIMESTEP; iterationCount := 1;
       r_trajectory := [mkTrajectoryPoint 0.0 0.0]; r_apex := 0.0 |} =
  inl (PhysicsValidationError "Magnus force calculation resulted in non-finite value").
Proof. annexF. reflexivity. Qed.

Lemma spinless_run :
  calculateTrajectoryWithValidation libm 50.0 0.0 0.0 0.0 0.0 noSpinAxis =
  mkTrajectoryResultWithStatus InvalidInput
    "Magnus force calculation resulted in non-finite value" None.
Proof.
  unfold calculateTrajectoryWithValidation, try_block.
  change (validateLaunchParameters 50.0 0.0 0.0 0.0 0.0) with (@inr exception unit tt).
  change (Z.to_nat MAX_ITERATIONS) with (S (Z.to_nat 9999)).
  rewrite spinless_initial_state.
  erewrite loop_raise; cycle 1.
  { reflexivity. }
  { apply spinless_first_step. }
  reflexivity.
Qed.




End SpecialRuns.

(** * The C library instances *)

Lemma libm_ref_AnnexF : AnnexF libm_ref.
Proof.
  constructor; try reflexivity.
  - intros b. cbn [libm_ref c_pow]. unfold RefLibm.pow.
    destruct (is_zero b); reflexivity.
  - intros b Hb. cbn [libm_ref c_pow]. unfold RefLibm.pow.
    unfold zero in Hb.
    destruct (positive_not_zero b Hb) as [Hz Hn].
    rewrite Hz, Hn, Hb. reflexivity.
Qed.

(** The reference implementation against the correctly rounded values of
    [exp 1], [pow 73.152 0.85], [sin 0.5], [cos (pi/2)] and [pow 2 0.5]. *)
Lemma libm_ref_samples :
  (abs (c_exp libm_ref 1 - 2.7182818284590451) <=? 1e-15) = true /\
  (abs (c_pow libm_ref 73.152 0.85 - 38.423088731236533) <=? 1e-14) = true /\
  (abs (c_sin libm_ref 0.5 - 0.47942553860420301) <=? 1e-16) = true /\
  (abs (c_cos libm_ref 1.5707963267948966 - 6.123233995736766e-17) <=? 1e-31) = true /\
  (abs (c_pow libm_ref 2 0.5 - 1.4142135623730951) <=? 1e-15) = true.
Proof. vm_compute. repeat split; reflexivity. Qed.

(** * Status, result and message *)

(** C7: every value returned by [calculateTrajectoryWithValidation] has a
    result and an empty message when its status is [Success], and no result
    when its status is anything else. *)
Theorem status_result_consistency :
  forall (libm : Libm) (initialSpeed launchAngle spinRate windSpeed windAngle : float)
         (spinAxis : SpinAxis),
    let r := calculateTrajectoryWithValidation libm initialSpeed launchAngle spinRate
               windSpeed windAngle spinAxis in
    (status r = Success -> result r <> None /\ errorMessage r = ""%string) /\
    (status r <> Success -> result r = None).
Proof.
  intros libm a b c d e ax r. subst r.
  destruct (result_cases libm a b c d e ax) as [(what & _ & Hr)|(st & _ & _ & Hr)];
    rewrite Hr.
  - simpl. split; [discriminate|reflexivity].
  - unfold finish. destruct (MAX_ITERATIONS <=? iterationCount st)%Z; simpl.
    + split; [discriminate|reflexivity].
    + split; [intros _; split; [discriminate|reflexivity]|intros H; contradiction].
Qed.

Lemma status_result_consistency_witness :
  (result (calculateTrajectoryWithValidation libm_ref 0.0 0.0 0.0 0.0 0.0 noSpinAxis)
     <> None /\
   errorMessage (calculateTrajectoryWithValidation libm_ref 0.0 0.0 0.0 0.0 0.0 noSpinAxis)
     = ""%string) /\
  result (calculateTrajectoryWithValidation libm_ref (-1.0) 10.5 2700.0 5.0 0.0 noSpinAxis)
    = None.
Proof.
  split.
  - apply (status_result_consistency libm_ref 0.0 0.0 0.0 0.0 0.0 noSpinAxis).
    vm_compute. reflexivity.
  - apply (status_result_consistency libm_ref (-1.0) 10.5 2700.0 5.0 0.0 noSpinAxis).
    vm_compute. discriminate.
Defined.

(** C6: whenever [calculateTrajectoryWithValidation] does not return
    [Success], the legacy [calculateTrajectory] returns the default-constructed
    [TrajectoryResult]: an empty trajectory, distance 0 and apex 0.  It
    returns a value: the handler of [calculateTrajectoryWithValidation] turns
    every exception into a status, so none reaches the caller. *)
Theorem legacy_returns_empty_result :
  forall (libm : Libm) (initialSpeed launchAngle spinRate windSpeed windAngle : float)
         (spinAxis : SpinAxis),
    status (calculateTrajectoryWithValidation libm initialSpeed launchAngle spinRate
              windSpeed windAngle spinAxis) <> Success ->
    calculateTrajectory libm initialSpeed launchAngle spinRate windSpeed windAngle spinAxis
    = Some {| trajectory := []; distance := 0.0; apex := 0.0 |}.
Proof.
  intros libm a b c d e ax H. unfold calculateTrajectory, isSuccess.
  destruct (status (calculateTrajectoryWithValidation libm a b c d e ax));
    [contradiction| | |]; reflexivity.
Qed.

Lemma legacy_returns_empty_result_witness :
  status (calculateTrajectoryWithValidation libm_ref (-1.0) 10.5 2700.0 5.0 0.0 noSpinAxis)
    <> Success /\
  calculateTrajectory libm_ref (-1.0) 10.5 2700.0 5.0 0.0 noSpinAxis
  = Some {| trajectory := []; distance := 0.0; apex := 0.0 |}.
Proof.
  split.
  - vm_compute. discriminate.
  - apply (legacy_returns_empty_result libm_ref (-1.0) 10.5 2700.0 5.0 0.0 noSpinAxis).
    vm_compute. discriminate.
Defined.

(** The legacy wrapper never dereferences an empty optional. *)
Lemma legacy_defined :
  forall (libm : Libm) (a b c d e : float) (ax : SpinAxis),
    calculateTrajectory libm a b c d e ax <> None.
Proof.
  intros libm a b c d e ax. unfold calculateTrajectory, isSuccess.
  destruct (result_cases libm a b c d e ax) as [(what & _ & Hr)|(st & _ & _ & Hr)];
    rewrite Hr; simpl; [discriminate|].
  unfold finish. destruct (MAX_ITERATIONS <=? iterationCount st)%Z; simpl; discriminate.
Qed.

(** C2 (the code departs from it): a numeric quantity that fails its check
    inside the loop is reported as [InvalidInput], not as [CalculationError].
    The launch (50 m/s, 0 degrees, no spin, no wind) passes the validation of
    the launch parameters, its Magnus force is NaN in the first iteration,
    and the value returned has status [InvalidInput] with the message of the
    check.  In general: whatever the loop raises is a
    [PhysicsValidationError], it is returned as [InvalidInput] with its own
    message, and no input at all yields [CalculationError]. *)
Theorem numeric_failure_reported_as_invalid_input :
  forall libm : Libm,
    AnnexF libm ->
    (validateLaunchParameters 50.0 0.0 0.0 0.0 0.0 = inr tt /\
     calculateTrajectoryWithValidation libm 50.0 0.0 0.0 0.0 0.0 noSpinAxis =
       mkTrajectoryResultWithStatus InvalidInput
         "Magnus force calculation resulted in non-finite value" None) /\
    (forall (a b c d e : float) (ax : SpinAxis) (err : exception),
       validateLaunchParameters a b c d e = inr tt ->
       loop libm a c d e ax (Z.to_nat MAX_ITERATIONS) (initial_state libm a b) = inl err ->
       exists what : string,
         err = PhysicsValidationError what /\
         calculateTrajectoryWithValidation libm a b c d e ax =
           mkTrajectoryResultWithStatus InvalidInput what None) /\
    (forall (a b c d e : float) (ax : SpinAxis),
       status (calculateTrajectoryWithValidation libm a b c d e ax) <> CalculationError).
Proof.
  intros libm HF. split; [split; [reflexivity|apply spinless_run; assumption]|]. split.
  - intros a b c d e ax err Hv Hl.
    pose proof (rov_loop libm a c d e ax (Z.to_nat MAX_ITERATIONS) (initial_state libm a b))
      as Hrov.
    rewrite Hl in Hrov. destruct err as [what|what]; [|destruct Hrov].
    exists what. split; [reflexivity|].
    unfold calculateTrajectoryWithValidation, try_block.
    rewrite Hv. cbv beta iota delta [bind]. rewrite Hl. reflexivity.
  - intros a b c d e ax.
    destruct (result_cases libm a b c d e ax) as [(what & _ & Hr)|(st & _ & _ & Hr)];
      rewrite Hr; simpl; [discriminate|].
    rewrite status_finish. destruct (MAX_ITERATIONS <=? iterationCount st)%Z; discriminate.
Qed.

Lemma numeric_failure_reported_as_invalid_input_witness :
  (validateLaunchParameters 50.0 0.0 0.0 0.0 0.0 = inr tt /\
   calculateTrajectoryWithValidation libm_ref 50.0 0.0 0.0 0.0 0.0 noSpinAxis =
     mkTrajectoryResultWithStatus InvalidInput
       "Magnus force calculation resulted in non-finite value" None) /\
  status (calculateTrajectoryWithValidation libm_ref 50.0 0.0 0.0 0.0 0.0 noSpinAxis)
    <> CalculationError.
Proof.
  destruct (numeric_failure_reported_as_invalid_input libm_ref libm_ref_AnnexF)
    as (H1 & _ & H3).
  split; [exact H1|apply H3].
Defined.

(** * The iteration cap *)

(** C5 (the code departs from it): [ConvergenceFailure] is returned exactly
    when the counter has reached [MAX_ITERATIONS] after the loop.  The loop
    leaves through the counter test exactly when the counter is
    [MAX_ITERATIONS + 1]; a run whose ball goes below the ground in iteration
    [MAX_ITERATIONS] leaves with the counter at [MAX_ITERATIONS] and is
    reported as [ConvergenceFailure] all the same. *)
Theorem convergence_failure_counts_iterations :
  forall (libm : Libm) (initialSpeed launchAngle spinRate windSpeed windAngle : float)
         (spinAxis : SpinAxis) (st : LoopState),
    validateLaunchParameters initialSpeed launchAngle spinRate windSpeed windAngle
      = inr tt ->
    loop libm initialSpeed spinRate windSpeed windAngle spinAxis
      (Z.to_nat MAX_ITERATIONS) (initial_state libm initialSpeed launchAngle) = inr st ->
    let r := calculateTrajectoryWithValidation libm initialSpeed launchAngle spinRate
               windSpeed windAngle spinAxis in
    (status r = ConvergenceFailure <-> (MAX_ITERATIONS <= iterationCount st)%Z) /\
    (ground_test st = true <-> iterationCount st = (MAX_ITERATIONS + 1)%Z) /\
    (ground_test st = false -> iterationCount st = MAX_ITERATIONS ->
     status r = ConvergenceFailure).
Proof.
  intros libm a b c d e ax st Hv Hl r.
  assert (Hr : r = finish st).
  { subst r. unfold calculateTrajectoryWithValidation, try_block.
    rewrite Hv. cbv beta iota delta [bind]. rewrite Hl. reflexivity. }
  assert (Hs : status r = ConvergenceFailure <-> (MAX_ITERATIONS <= iterationCount st)%Z).
  { rewrite Hr, status_finish.
    destruct (MAX_ITERATIONS <=? iterationCount st)%Z eqn:E.
    - apply Z.leb_le in E. tauto.
    - apply Z.leb_gt in E. split; [discriminate|lia]. }
  destruct (run_finished libm a b c d e ax st Hl) as [_ [[Hg Hc]|[Hg Hc]]].
  - split; [exact Hs|]. split.
    + rewrite Hg. split; [discriminate|lia].
    + intros _ Hm. apply Hs. lia.
  - split; [exact Hs|]. split.
    + tauto.
    + rewrite Hg. discriminate.
Qed.

Lemma convergence_failure_counts_iterations_witness :
  iterationCount lastIterationLanding_state = MAX_ITERATIONS /\
  ground_test lastIterationLanding_state = false /\
  (y lastIterationLanding_state <? 0.0) = true /\
  status (calculateTrajectoryWithValidation libm_ref 3.4646 45.0 2000.0 0.0 0.0 noSpinAxis)
  = ConvergenceFailure.
Proof.
  assert (Hl : loop libm_ref 3.4646 2000.0 0.0 0.0 noSpinAxis (Z.to_nat MAX_ITERATIONS)
                 (initial_state libm_ref 3.4646 45.0) = inr lastIterationLanding_state).
  { vm_compute. reflexivity. }
  destruct (convergence_failure_counts_iterations libm_ref 3.4646 45.0 2000.0 0.0 0.0
              noSpinAxis lastIterationLanding_state eq_refl Hl) as (_ & _ & H).
  split; [reflexivity|]. split; [reflexivity|]. split; [reflexivity|].
  apply H; reflexivity.
Defined.

(** * Successful runs *)







(** * The Magnus force without spin *)

Lemma magnus_force_spinless (libm : Libm) (velocity radius : float) (spinAxis : SpinAxis)
    (time : float) :
  calculateMagnusForce libm 0.0 velocity radius spinAxis time = nan.
Proof.
  unfold calculateMagnusForce, calculateSpinDecay.
  set (currentSpin := 0.0 * c_exp libm (- SPIN_DECAY_RATE * time)).
  assert (Hs : zero_or_nan currentSpin).
  { apply zero_or_nan_mul_l. exact I. }
  rewrite (zero_or_nan_div (currentSpin * c_cos libm _) currentSpin)
    by first [exact Hs|apply zero_or_nan_mul_l; exact Hs].
  rewrite mul_nan_r, mul_nan_l, add_nan_l. reflexivity.
Qed.

(** C10: with [spinRate = 0], [calculateMagnusForce] is NaN for every
    velocity, spin axis and time, whatever the C library computes, and NaN
    is not finite.  The check of the Magnus force is reached by a launch
    within the validated ranges: for (50 m/s, 0 degrees, no spin, no wind)
    the first iteration of the loop raises its non-finite error. *)
Theorem magnus_force_nan_without_spin :
  forall libm : Libm,
    AnnexF libm ->
    (forall (velocity radius : float) (spinAxis : SpinAxis) (time : float),
       calculateMagnusForce libm 0.0 velocity radius spinAxis time = nan) /\
    isfinite nan = false /\
    validateLaunchParameters 50.0 0.0 0.0 0.0 0.0 = inr tt /\
    loop_body libm 50.0 0.0 0.0 0.0 noSpinAxis
      (snd (loop_cond (initial_state libm 50.0 0.0))) =
    inl (PhysicsValidationError "Magnus force calculation resulted in non-finite value").
Proof.
  intros libm HF.
  split; [intros; apply magnus_force_spinless|].
  split; [reflexivity|]. split; [reflexivity|].
  rewrite (spinless_initial_state libm HF).
  apply (spinless_first_step libm HF).
Qed.

Lemma magnus_force_nan_without_spin_witness :
  (forall (velocity radius : float) (spinAxis : SpinAxis) (time : float),
     calculateMagnusForce libm_ref 0.0 velocity radius spinAxis time = nan) /\
  isfinite nan = false /\
  validateLaunchParameters 50.0 0.0 0.0 0.0 0.0 = inr tt /\
  loop_body libm_ref 50.0 0.0 0.0 0.0 noSpinAxis
    (snd (loop_cond (initial_state libm_ref 50.0 0.0))) =
  inl (PhysicsValidationError "Magnus force calculation resulted in non-finite value").
Proof.
  apply (magnus_force_nan_without_spin libm_ref). exact libm_ref_AnnexF.
Defined.

(** * The atmosphere *)

Lemma layer_boundaries_ordered :
  (11000 <? 47000) = true /\ (20000 <? 47000) = true /\ (32000 <? 47000) = true.
Proof. repeat split; reflexivity. Qed.

Lemma findLayerIndex_in_range (altitude : float) :
  (findLayerIndex altitude < length layers)%nat.
Proof.
  unfold findLayerIndex, layers. simpl.
  destruct (altitude <? 11000); simpl; [lia|].
  destruct (altitude <? 20000); simpl; [lia|].
  destruct (altitude <? 32000); simpl; [lia|].
  destruct (altitude <? 47000); simpl; lia.
Qed.

Lemma getLayer_nth_error (altitude : float) :
  nth_error layers (findLayerIndex altitude) = Some (getLayer altitude).
Proof.
  unfold getLayer. apply nth_error_nth'. apply findLayerIndex_in_range.
Qed.

(** C8: for every altitude (any binary64 value), [getTemperature] is
    [T_base + lapseRate * (h - h_base)] of the layer [layers[findLayerIndex h]];
    the index is always within the table, so the lookup raises nothing; an
    altitude below 11000 m, negative ones included, selects layer 0, and an
    altitude at or above 47000 m selects the last layer. *)
Theorem temperature_by_layer :
  forall altitude : float,
    (findLayerIndex altitude < length layers)%nat /\
    nth_error layers (findLayerIndex altitude) = Some (getLayer altitude) /\
    getTemperature altitude =
      temperature (getLayer altitude) +
      lapseRate (getLayer altitude) * (altitude - baseAltitude (getLayer altitude)) /\
    ((altitude <? 11000) = true ->
       getLayer altitude = mkAtmosphericLayer 0 288.15 101325.0 (-0.0065)) /\
    ((47000 <=? altitude) = true ->
       getLayer altitude = mkAtmosphericLayer 47000 270.65 110.906 0.0).
Proof.
  intros altitude.
  split; [apply findLayerIndex_in_range|].
  split; [apply getLayer_nth_error|].
  split; [reflexivity|].
  split.
  - intros H. unfold getLayer, findLayerIndex, layers. simpl. rewrite H. reflexivity.
  - intros H. apply leb_not_ltb in H.
    destruct layer_boundaries_ordered as (H1 & H2 & H3).
    unfold getLayer, findLayerIndex, layers. simpl.
    rewrite (ltb_false_below altitude 11000 47000 H1 H).
    rewrite (ltb_false_below altitude 20000 47000 H2 H).
    rewrite (ltb_false_below altitude 32000 47000 H3 H).
    rewrite H. reflexivity.
Qed.

Lemma temperature_by_layer_witness :
  getLayer (-100) = mkAtmosphericLayer 0 288.15 101325.0 (-0.0065) /\
  getLayer 50000 = mkAtmosphericLayer 47000 270.65 110.906 0.0 /\
  getTemperature (-100) = 288.15 + -0.0065 * (-100 - 0).
Proof.
  destruct (temperature_by_layer (-100)) as (_ & _ & Ht & Hlow & _).
  destruct (temperature_by_layer 50000) as (_ & _ & _ & _ & Hhigh).
  split; [apply Hlow; reflexivity|].
  split; [apply Hhigh; reflexivity|].
  rewrite Ht, (Hlow eq_refl). reflexivity.
Defined.

(** * The drag coefficient *)

Section DragCoefficient.

Local Open Scope R_scope.






End DragCoefficient.





(** * Spin decay *)



(** * Further facts about the order of binary64 values *)

Section OrderFacts.

Ltac order_cases :=
  repeat match goal with
         | |- context [(?a ?= ?b)%Z] => destruct (Z.compare_spec a b)
         | H : context [(?a ?= ?b)%Z] |- _ => destruct (Z.compare_spec a b)
         | |- context [Pos.compare_cont Eq ?a ?b] =>
             change (Pos.compare_cont Eq a b) with (Pos.compare a b);
             destruct (Pos.compare_spec a b)
         | H : context [Pos.compare_cont Eq ?a ?b] |- _ =>
             change (Pos.compare_cont Eq a b) with (Pos.compare a b) in H;
             destruct (Pos.compare_spec a b)
         end;
  simpl in *; subst; try reflexivity; try discriminate; try lia.

Ltac sf_cases :=
  intros;
  repeat match goal with
         | s : spec_float |- _ => destruct s as [[|]|[|]| |[|] ? ?]
         end;
  simpl in *; try reflexivity; try discriminate; try congruence; order_cases.

Lemma SFcompare_refl (a : spec_float) : a <> S754_nan -> SFcompare a a = Some Eq.
Proof.
  destruct a as [[|]|[|]| |[|] m e]; simpl; try reflexivity; try congruence; intros _;
    rewrite Z.compare_refl, Pos.compare_cont_refl; reflexivity.
Qed.

Lemma SFcompare_total (a b : spec_float) :
  a <> S754_nan -> b <> S754_nan ->
  SFcompare a b <> Some Lt ->
  SFcompare b a = Some Lt \/ SFcompare b a = Some Eq.
Proof.
  destruct a as [[|]|[|]| |[|] m e]; destruct b as [[|]|[|]| |[|] m' e']; simpl;
    intros Ha Hb H; auto; try congruence;
    destruct (Z.compare_spec e e'); destruct (Z.compare_spec e' e); subst;
      auto; try lia; try congruence;
    change (Pos.compare_cont Eq m m') with (Pos.compare m m') in *;
    change (Pos.compare_cont Eq m' m) with (Pos.compare m' m) in *;
    destruct (Pos.compare_spec m m'); destruct (Pos.compare_spec m' m); subst;
      simpl in *; auto; try lia; try congruence.
Qed.

Lemma SFcompare_eq_lt_trans (a b c : spec_float) :
  SFcompare a b = Some Eq -> SFcompare b c = Some Lt -> SFcompare a c = Some Lt.
Proof. revert a b c. sf_cases. Qed.

Lemma SFcompare_lt_eq_trans (a b c : spec_float) :
  SFcompare a b = Some Lt -> SFcompare b c = Some Eq -> SFcompare a c = Some Lt.
Proof. revert a b c. sf_cases. Qed.

Lemma SFcompare_eq_trans (a b c : spec_float) :
  SFcompare a b = Some Eq -> SFcompare b c = Some Eq -> SFcompare a c = Some Eq.
Proof. revert a b c. sf_cases. Qed.

Lemma SFcompare_not_nan (a b : spec_float) (o : comparison) :
  SFcompare a b = Some o -> a <> S754_nan /\ b <> S754_nan.
Proof.
  destruct a, b; simpl; intros H; split; congruence.
Qed.

Lemma ordered_spec (v : float) : ordered v = true <-> Prim2SF v <> S754_nan.
Proof.
  unfold ordered. rewrite FloatAxioms.eqb_spec. unfold SFeqb. split.
  - intros H E. rewrite E in H. discriminate.
  - intros H. rewrite SFcompare_refl by assumption. reflexivity.
Qed.

Lemma ordered_nan : ordered nan = false.
Proof. reflexivity. Qed.

Lemma ltb_ordered (a b : float) :
  (a <? b) = true -> ordered a = true /\ ordered b = true.
Proof.
  rewrite ltb_compare, !ordered_spec. apply SFcompare_not_nan.
Qed.

Lemma leb_ordered (a b : float) :
  (a <=? b) = true -> ordered a = true /\ ordered b = true.
Proof.
  rewrite leb_compare, !ordered_spec. intros [H|H]; eapply SFcompare_not_nan; exact H.
Qed.

Lemma isfinite_ordered (v : float) : isfinite v = true -> ordered v = true.
Proof.
  rewrite isfinite_spec, ordered_spec. destruct (Prim2SF v); congruence.
Qed.

Lemma leb_refl (a : float) : ordered a = true -> (a <=? a) = true.
Proof.
  rewrite ordered_spec, leb_compare. intros H. right. apply SFcompare_refl. exact H.
Qed.

Lemma ltb_leb (a b : float) : (a <? b) = true -> (a <=? b) = true.
Proof. rewrite ltb_compare, leb_compare. auto. Qed.

(** For two numbers, [a < b] or [b <= a]. *)
Lemma not_ltb_leb (a b : float) :
  ordered a = true -> ordered b = true -> (a <? b) = false -> (b <=? a) = true.
Proof.
  rewrite !ordered_spec, leb_compare. intros Ha Hb H.
  apply SFcompare_total; try assumption.
  intros E. apply ltb_compare in E. congruence.
Qed.

Lemma leb_negb_ltb (a b : float) :
  ordered a = true -> ordered b = true -> (b <=? a) = negb (a <? b).
Proof.
  intros Ha Hb. destruct (a <? b) eqn:E; simpl.
  - destruct (b <=? a) eqn:E'; [|reflexivity].
    apply leb_not_ltb in E'. congruence.
  - apply not_ltb_leb; assumption.
Qed.

Lemma leb_ltb_trans (a b c : float) :
  (a <=? b) = true -> (b <? c) = true -> (a <? c) = true.
Proof.
  rewrite leb_compare, !ltb_compare. intros [H|H] H'.
  - eapply SFcompare_lt_trans; eassumption.
  - eapply SFcompare_eq_lt_trans; eassumption.
Qed.

Lemma ltb_leb_trans (a b c : float) :
  (a <? b) = true -> (b <=? c) = true -> (a <? c) = true.
Proof.
  rewrite leb_compare, !ltb_compare. intros H [H'|H'].
  - eapply SFcompare_lt_trans; eassumption.
  - eapply SFcompare_lt_eq_trans; eassumption.
Qed.

Lemma leb_trans (a b c : float) :
  (a <=? b) = true -> (b <=? c) = true -> (a <=? c) = true.
Proof.
  intros H H'. pose proof H' as H2. rewrite leb_compare in H2. destruct H2 as [H2|H2].
  - apply ltb_leb. apply leb_ltb_trans with b; [assumption|]. apply ltb_compare. exact H2.
  - rewrite leb_compare in H |- *. destruct H as [H|H].
    + left. eapply SFcompare_lt_eq_trans; eassumption.
    + right. eapply SFcompare_eq_trans; eassumption.
Qed.

Lemma sub_nan_l (a : float) : nan - a = nan.
Proof.
  apply Prim2SF_nan. rewrite FloatAxioms.sub_spec. reflexivity.
Qed.

(** [std::max(a, b)] is at least [a], NaN or not. *)
Lemma std_max_lower (a b : float) : ordered a = true -> (a <=? std_max a b) = true.
Proof.
  intros Ha. unfold std_max. destruct (a <? b) eqn:E.
  - apply ltb_leb. exact E.
  - apply leb_refl. exact Ha.
Qed.

(** [std::min(hi, v)] stays between [lo] and [hi] when [lo <= hi] and [lo <= v]. *)
Lemma std_min_between (lo hi v : float) :
  (lo <=? hi) = true -> (lo <=? v) = true ->
  (lo <=? std_min hi v) = true /\ (std_min hi v <=? hi) = true.
Proof.
  intros Hlh Hlv. unfold std_min. destruct (v <? hi) eqn:E.
  - split; [assumption|]. apply ltb_leb. exact E.
  - split; [assumption|]. apply leb_refl. apply (leb_ordered lo hi Hlh).
Qed.

End OrderFacts.
(** * The validators *)

Section ValidatorFacts.

Lemma ltb_nan_l (v a : float) : ordered v = false -> (v <? a) = false.
Proof.
  intros H. destruct (v <? a) eqn:E; [|reflexivity].
  apply ltb_ordered in E. destruct E. congruence.
Qed.

Lemma ltb_nan_r (v a : float) : ordered v = false -> (a <? v) = false.
Proof.
  intros H. destruct (a <? v) eqn:E; [|reflexivity].
  apply ltb_ordered in E. destruct E. congruence.
Qed.

(** The two tests of a validator against the bounds [lo] and [hi]. *)
Lemma between_spec (lo hi v : float) :
  ordered lo = true -> ordered hi = true ->
  negb (v <? lo) && negb (hi <? v) = nan_or_between lo hi v.
Proof.
  intros Hlo Hhi. unfold nan_or_between. destruct (ordered v) eqn:Hv; simpl.
  - rewrite <- (leb_negb_ltb v lo), <- (leb_negb_ltb hi v) by assumption. reflexivity.
  - rewrite ltb_nan_l, ltb_nan_r by assumption. reflexivity.
Qed.

Lemma between_finite (lo hi v : float) :
  isfinite v = true -> ordered lo = true -> ordered hi = true ->
  negb ((v <? lo) || (hi <? v)) = (lo <=? v) && (v <=? hi).
Proof.
  intros Hf Hlo Hhi. rewrite negb_orb, between_spec by assumption.
  unfold nan_or_between. rewrite (isfinite_ordered v Hf). reflexivity.
Qed.

Lemma append_nonempty (a b : string) : b <> ""%string -> (a ++ b)%string <> ""%string.
Proof.
  intros Hb. destruct a; simpl; [assumption|discriminate].
Qed.

Lemma rwm_ret {A : Type} (a : A) : raises_with_message (ret a).
Proof. exact I. Qed.

Lemma rwm_bind {A B : Type} (c : exc A) (k : A -> exc B) :
  raises_with_message c -> (forall a, raises_with_message (k a)) ->
  raises_with_message (bind c k).
Proof.
  destruct c as [[w|w]|a]; simpl; auto.
Qed.

Lemma rwm_validateLaunchParameters (a b c d e : float) :
  raises_with_message (validateLaunchParameters a b c d e).
Proof.
  unfold validateLaunchParameters.
  repeat match goal with |- context [if ?t then _ else _] => destruct t end;
    simpl; try exact I; discriminate.
Qed.

Lemma rwm_validateTrajectoryPoint (p : TrajectoryPoint) (d : float) :
  raises_with_message (validateTrajectoryPoint p d).
Proof.
  unfold validateTrajectoryPoint.
  repeat match goal with |- context [if ?t then _ else _] => destruct t end;
    simpl; try exact I; discriminate.
Qed.

Lemma rwm_validatePhysicalQuantity (v lo hi : float) (name : string) :
  raises_with_message (validatePhysicalQuantity v lo hi name).
Proof.
  unfold validatePhysicalQuantity.
  repeat match goal with |- context [if ?t then _ else _] => destruct t end;
    simpl; try exact I; apply append_nonempty; discriminate.
Qed.

Context (libm : Libm).
Context (initialSpeed launchAngle spinRate windSpeed windAngle : float)
        (spinAxis : SpinAxis).

Lemma rwm_updateVelocity (st : LoopState) (a b c d : float) :
  raises_with_message (updateVelocity libm initialSpeed spinRate spinAxis st a b c d).
Proof.
  unfold updateVelocity.
  destruct (0.001 <? c); [|apply rwm_ret].
  repeat (apply rwm_bind; [apply rwm_validatePhysicalQuantity|intros _]).
  apply rwm_ret.
Qed.

Lemma rwm_loop_body (st : LoopState) :
  raises_with_message
    (loop_body libm initialSpeed spinRate windSpeed windAngle spinAxis st).
Proof.
  unfold loop_body.
  destruct (calculateRelativeVelocity libm (vx st) (vy st) _ windAngle) as [relVx relVy].
  apply rwm_bind; [apply rwm_validatePhysicalQuantity|intros _].
  apply rwm_bind; [apply rwm_updateVelocity|intros [vx' vy']].
  apply rwm_bind; [apply rwm_validateTrajectoryPoint|intros _].
  apply rwm_ret.
Qed.

Lemma rwm_loop (fuel : nat) (st : LoopState) :
  raises_with_message
    (loop libm initialSpeed spinRate windSpeed windAngle spinAxis fuel st).
Proof.
  revert st. induction fuel as [|fuel IH]; intros st; simpl;
    destruct (loop_cond st) as [[|] st1]; try apply rwm_ret.
  apply rwm_bind; [apply rwm_loop_body|intros st2; apply IH].
Qed.

End ValidatorFacts.

Lemma validateLaunchParameters_spec
    (initialSpeed launchAngle spinRate windSpeed windAngle : float) :
  validateLaunchParameters initialSpeed launchAngle spinRate windSpeed windAngle = inr tt
  <-> launch_accepts initialSpeed launchAngle spinRate windSpeed windAngle = true.
Proof.
  unfold launch_accepts.
  rewrite <- !between_spec by reflexivity.
  unfold validateLaunchParameters.
  destruct (initialSpeed <? 0.0), (100.0 <? initialSpeed),
    (launchAngle <? -90.0), (90.0 <? launchAngle),
    (spinRate <? 0.0), (10000.0 <? spinRate),
    (windSpeed <? 0.0), (50.0 <? windSpeed),
    (windAngle <? 0.0), (360.0 <? windAngle); simpl;
    split; intros H; try reflexivity; discriminate H.
Qed.

(** X1 (physics_validation.h, validateLaunchParameters): the launch
    parameters are accepted exactly when each of them is NaN or lies in its
    closed range (speed 0..100, angle -90..90, spin 0..10000, wind speed
    0..50, wind angle 0..360): the bounds themselves are accepted, and so is
    NaN, which fails every comparison of the function. *)
Theorem launch_parameters_accepted
    (initialSpeed launchAngle spinRate windSpeed windAngle : float) :
  validateLaunchParameters initialSpeed launchAngle spinRate windSpeed windAngle = inr tt
  <-> launch_accepts initialSpeed launchAngle spinRate windSpeed windAngle = true.
Proof.
  unfold launch_accepts, validateLaunchParameters.
  rewrite <- !between_spec by reflexivity.
  destruct (initialSpeed <? 0.0), (100.0 <? initialSpeed); simpl;
    try (split; intros H; discriminate H).
  destruct (launchAngle <? -90.0), (90.0 <? launchAngle); simpl;
    try (split; intros H; discriminate H).
  destruct (spinRate <? 0.0), (10000.0 <? spinRate); simpl;
    try (split; intros H; discriminate H).
  destruct (windSpeed <? 0.0), (50.0 <? windSpeed); simpl;
    try (split; intros H; discriminate H).
  destruct (windAngle <? 0.0), (360.0 <? windAngle); simpl;
    split; intros H; try reflexivity; discriminate H.
Qed.

(** X2 (physics_validation.h, validatePhysicalQuantity): for bounds that
    are numbers, a value is accepted exactly when it is finite and lies in
    the closed interval of the bounds. *)
Theorem physical_quantity_accepted (value minValue maxValue : float) (name : string)
    (Hmin : ordered minValue = true) (Hmax : ordered maxValue = true) :
  validatePhysicalQuantity value minValue maxValue name = inr tt
  <-> isfinite value && (minValue <=? value) && (value <=? maxValue) = true.
Proof.
  unfold validatePhysicalQuantity.
  destruct (isfinite value) eqn:Hf; simpl.
  - rewrite <- between_finite by assumption.
    destruct ((value <? minValue) || (maxValue <? value)); simpl;
      split; intros H; try reflexivity; discriminate H.
  - split; intros H; discriminate H.
Qed.

Lemma physical_quantity_accepted_witness :
  validatePhysicalQuantity 0.235 0.0 1.0 "Drag coefficient" = inr tt
  <-> isfinite 0.235 && (0.0 <=? 0.235) && (0.235 <=? 1.0) = true.
Proof.
  apply (physical_quantity_accepted 0.235 0.0 1.0 "Drag coefficient"); reflexivity.
Defined.

(** X3 (physics_validation.h, validateTrajectoryPoint): for a maximum
    distance that is a number, a point is accepted exactly when both
    coordinates are finite, [0 <= x <= maxDistance] and
    [-0.1 <= y <= 500]. *)
Theorem trajectory_point_accepted (point : TrajectoryPoint) (maxDistance : float)
    (Hmax : ordered maxDistance = true) :
  validateTrajectoryPoint point maxDistance = inr tt
  <-> isfinite (pt_x point) && isfinite (pt_y point)
      && ((0.0 <=? pt_x point) && (pt_x point <=? maxDistance))
      && ((-0.1 <=? pt_y point) && (pt_y point <=? 500.0)) = true.
Proof.
  unfold validateTrajectoryPoint.
  destruct (isfinite (pt_x point)) eqn:Hx; simpl; [|split; intros H; discriminate H].
  destruct (isfinite (pt_y point)) eqn:Hy; simpl; [|split; intros H; discriminate H].
  rewrite <- !between_finite by (assumption || reflexivity).
  destruct ((pt_x point <? 0.0) || (maxDistance <? pt_x point)); simpl;
    [split; intros H; discriminate H|].
  destruct ((pt_y point <? -0.1) || (500.0 <? pt_y point)); simpl;
    split; intros H; try reflexivity; discriminate H.
Qed.

Lemma trajectory_point_accepted_witness :
  validateTrajectoryPoint (mkTrajectoryPoint 120.5 0.0) 1000.0 = inr tt
  <-> isfinite 120.5 && isfinite 0.0
      && ((0.0 <=? 120.5) && (120.5 <=? 1000.0))
      && ((-0.1 <=? 0.0) && (0.0 <=? 500.0)) = true.
Proof.
  apply (trajectory_point_accepted (mkTrajectoryPoint 120.5 0.0) 1000.0); reflexivity.
Defined.

(** X4 (trajectory.cpp, the adaptive time step): whatever the state, the
    relative speed and the values of [exp] and [pow], the time step of an
    iteration lies between [MIN_TIMESTEP] and [MAX_TIMESTEP]; it is never
    NaN, even when a factor of the raw step is. *)
Theorem time_step_clamped (libm : Libm) (spinRate : float) (st : LoopState)
    (relV : float) :
  (MIN_TIMESTEP <=? adaptiveTimeStep libm spinRate st relV) = true /\
  (adaptiveTimeStep libm spinRate st relV <=? MAX_TIMESTEP) = true.
Proof.
  unfold adaptiveTimeStep. cbv zeta.
  apply std_min_between; [reflexivity|].
  apply std_max_lower. reflexivity.
Qed.

(** X5 (trajectory.cpp, calculateTrajectoryWithValidation): the error
    message is empty exactly when the status is [Success]; every failure
    carries a message. *)
Theorem message_empty_iff_success (libm : Libm)
    (initialSpeed launchAngle spinRate windSpeed windAngle : float)
    (spinAxis : SpinAxis) :
  let res := calculateTrajectoryWithValidation libm initialSpeed launchAngle
               spinRate windSpeed windAngle spinAxis in
  errorMessage res = ""%string <-> status res = Success.
Proof.
  cbv zeta.
  assert (Hm : raises_with_message
                 (try_block libm initialSpeed launchAngle spinRate windSpeed
                    windAngle spinAxis)
               /\ forall r, try_block libm initialSpeed launchAngle spinRate windSpeed
                              windAngle spinAxis = inr r ->
                            exists st, r = finish st).
  { unfold try_block. split.
    - apply rwm_bind; [apply rwm_validateLaunchParameters|intros _].
      apply rwm_bind; [apply rwm_loop|intros st; apply rwm_ret].
    - intros r H. apply bind_inr in H. destruct H as [[] [_ H]].
      apply bind_inr in H. destruct H as [st [_ H]].
      exists st. inversion H. reflexivity. }
  destruct Hm as [Hm Hr].
  unfold calculateTrajectoryWithValidation.
  destruct (try_block libm initialSpeed launchAngle spinRate windSpeed windAngle spinAxis)
    as [[what|what]|r]; simpl in Hm |- *.
  - split; intros H; [contradiction|discriminate H].
  - split; intros H; discriminate H.
  - destruct (Hr r eq_refl) as [st ->]. unfold finish.
    destruct (MAX_ITERATIONS <=? iterationCount st)%Z; simpl;
      split; intros H; try reflexivity; discriminate H.
Qed.
(** * The integrator: size of the trajectory, apex, spacing of the points *)

Lemma last_cons {A : Type} (a d : A) (l : list A) : last (a :: l) d = last l a.
Proof.
  revert a d. induction l as [|b l IH]; intros a d; [reflexivity|].
  change (last (a :: b :: l) d) with (last (b :: l) d).
  rewrite !IH. reflexivity.
Qed.

Lemma chain_far_app (p q : TrajectoryPoint) (l : list TrajectoryPoint) :
  chain_far p l -> far_apart (last l p) q = true -> chain_far p (l ++ [q]).
Proof.
  revert p. induction l as [|a l IH]; intros p Hc Hf; simpl.
  - split; [exact Hf|exact I].
  - destruct Hc as [Ha Hc]. split; [exact Ha|].
    apply IH; [exact Hc|]. rewrite last_cons in Hf. exact Hf.
Qed.



Lemma decimated_push_back (v : list TrajectoryPoint) (q : TrajectoryPoint) :
  v <> [] -> decimated v ->
  (length v < 2)%nat \/ far_apart (back v) q = true ->
  decimated (push_back v q).
Proof.
  unfold push_back, back.
  destruct v as [|p0 [|p1 rest]]; intros Hne Hd Hq; [contradiction|exact I|].
  destruct Hq as [Hq|Hq]; [simpl in Hq; lia|].
  change (chain_far p1 (rest ++ [q])).
  apply chain_far_app; [exact Hd|].
  rewrite 2!last_cons in Hq. exact Hq.
Qed.

Lemma recordPoint_pushed (v : list TrajectoryPoint) (a b : float) :
  (recordPoint v a b = push_back v (mkTrajectoryPoint a b) /\
   ((length v < 2)%nat \/ far_apart (back v) (mkTrajectoryPoint a b) = true)) \/
  (recordPoint v a b = v /\ (2 <= length v)%nat).
Proof.
  unfold recordPoint, far_apart. simpl.
  destruct (length v <? 2)%nat eqn:Hl; simpl.
  - left. split; [reflexivity|]. left. apply Nat.ltb_lt. exact Hl.
  - destruct ((0.1 <? abs (a - pt_x (back v))) || (0.1 <? abs (b - pt_y (back v))));
      [left; auto|right]. split; [reflexivity|]. apply Nat.ltb_ge. exact Hl.
Qed.

Lemma length_set_back (v : list TrajectoryPoint) (p : TrajectoryPoint) :
  v <> [] -> length (set_back v p) = length v.
Proof.
  intros Hne. unfold set_back.
  rewrite (app_removelast_last p Hne) at 2. rewrite !length_app. reflexivity.
Qed.

Section TrajectoryShape.

Context (libm : Libm).
Context (initialSpeed launchAngle spinRate windSpeed windAngle : float)
        (spinAxis : SpinAxis).

Local Abbreviation the_body :=
  (loop_body libm initialSpeed spinRate windSpeed windAngle spinAxis).
Local Abbreviation the_loop :=
  (loop libm initialSpeed spinRate windSpeed windAngle spinAxis).
Local Abbreviation the_initial_state := (initial_state libm initialSpeed launchAngle).
Local Abbreviation the_result :=
  (calculateTrajectoryWithValidation libm initialSpeed launchAngle spinRate
     windSpeed windAngle spinAxis).

Lemma loop_cond_apex (st st1 : LoopState) (c : bool) :
  loop_cond st = (c, st1) -> r_apex st1 = r_apex st.
Proof.
  unfold loop_cond.
  destruct ((0.0 <=? y st) || empty (r_trajectory st)); intros H; inversion H; reflexivity.
Qed.

Lemma loop_body_apex (st st' : LoopState) :
  the_body st = inr st' ->
  r_apex st' = if r_apex st <? y st' then y st' else r_apex st.
Proof.
  unfold loop_body.
  destruct (calculateRelativeVelocity libm (vx st) (vy st) _ windAngle) as [relVx relVy].
  intros H.
  apply bind_inr in H. destruct H as [[] [_ H]].
  apply bind_inr in H. destruct H as [[vx' vy'] [_ H]].
  apply bind_inr in H. destruct H as [[] [_ H]].
  inversion H; subst; simpl. reflexivity.
Qed.

Lemma Inv2_initial : Inv2 the_initial_state.
Proof.
  constructor; simpl.
  - lia.
  - right. reflexivity.
  - reflexivity.
  - reflexivity.
  - constructor; [reflexivity|constructor].
  - exact I.
Qed.

Lemma Inv2_step (st st1 st2 : LoopState) :
  Inv st -> Inv2 st -> loop_cond st = (true, st1) -> the_body st1 = inr st2 ->
  Inv2 st2.
Proof.
  intros HI [Hsize _ Hlo Hhi Hall Hdec] Hc Hb.
  pose proof (Inv_nonempty st HI) as Hne.
  pose proof (loop_cond_apex _ _ _ Hc) as Ha1.
  apply loop_cond_true in Hc. destruct Hc as (_ & _ & He & _ & _ & _ & Ht).
  pose proof (loop_body_apex _ _ Hb) as Ha2. rewrite Ha1 in Ha2.
  apply loop_body_inr in Hb. destruct Hb as (He2 & _ & Hv & Ht2).
  rewrite Ht in Ht2.
  destruct (validPoint_inv _ Hv) as (_ & Hfy & _ & _ & _ & Hy500). simpl in Hfy, Hy500.
  pose proof (isfinite_ordered _ Hfy) as Hoy.
  destruct (leb_ordered _ _ Hlo) as [_ Hoa].
  assert (Hmono : (r_apex st <=? r_apex st2) = true).
  { rewrite Ha2. destruct (r_apex st <? y st2) eqn:E;
      [apply ltb_leb; exact E|apply leb_refl; exact Hoa]. }
  assert (Hnew : (y st2 <=? r_apex st2) = true).
  { rewrite Ha2. destruct (r_apex st <? y st2) eqn:E;
      [apply leb_refl; exact Hoy|apply not_ltb_leb; assumption]. }
  assert (Hall2 : Forall (fun p => (pt_y p <=? r_apex st2) = true) (r_trajectory st)).
  { eapply Forall_impl; [|exact Hall]. simpl. intros p Hp.
    apply leb_trans with (r_apex st); assumption. }
  assert (Hlen : (1 <= length (r_trajectory st))%nat).
  { destruct (r_trajectory st); [contradiction|simpl; lia]. }
  destruct (recordPoint_pushed (r_trajectory st) (x st2) (y st2))
    as [[Hr Hwhy]|[Hr Hl2]]; rewrite Hr in Ht2; constructor; rewrite ?Ht2;
    unfold push_back; rewrite ?length_app; simpl length;
    try assumption; try lia.
  - apply leb_trans with (r_apex st); assumption.
  - rewrite Ha2. destruct (r_apex st <? y st2);
      [apply not_ltb_leb; [reflexivity|assumption|assumption]|assumption].
  - apply Forall_app. split; [assumption|]. constructor; [exact Hnew|constructor].
  - apply decimated_push_back; assumption.
  - apply leb_trans with (r_apex st); assumption.
  - rewrite Ha2. destruct (r_apex st <? y st2);
      [apply not_ltb_leb; [reflexivity|assumption|assumption]|assumption].
Qed.

Lemma Inv2_stop (st st1 : LoopState) :
  Inv2 st -> loop_cond st = (false, st1) -> Inv2 st1.
Proof.
  intros [Hsize Htwo Hlo Hhi Hall Hdec] Hc.
  pose proof (loop_cond_apex _ _ _ Hc) as Ha.
  apply loop_cond_false in Hc. destruct Hc as (_ & Hy & _ & Ht & Hcnt).
  constructor; rewrite ?Ha, ?Ht, ?Hy; try assumption.
  destruct Hcnt as [[_ He]|(_ & _ & He)]; lia.
Qed.

Lemma loop_exit2 (fuel : nat) :
  forall st st' : LoopState,
    Inv st -> Inv2 st ->
    (0 <= iterationCount st <= MAX_ITERATIONS)%Z ->
    (MAX_ITERATIONS <= Z.of_nat fuel + iterationCount st)%Z ->
    the_loop fuel st = inr st' ->
    Inv2 st'.
Proof.
  induction fuel as [|fuel IH]; intros st st' HI HI2 Hcnt Hfuel Hloop; simpl in Hloop;
    destruct (loop_cond st) as [[|] st1] eqn:Hc.
  - apply loop_cond_true in Hc. lia.
  - inversion Hloop; subst st'. eapply Inv2_stop; eassumption.
  - apply bind_inr in Hloop. destruct Hloop as [st2 [Hb Hloop]].
    pose proof (Inv2_step _ _ _ HI HI2 Hc Hb) as HI2'.
    pose proof (Inv_loop_cond _ _ _ HI Hc) as HI1.
    apply loop_cond_true in Hc. destruct Hc as (Hg & Hlt & He & _ & Hy & _ & Ht).
    assert (Hg1 : ground_test st1 = true).
    { rewrite (ground_test_transport st st1); assumption. }
    pose proof (Inv_loop_body _ _ _ _ _ _ _ _ HI1 Hg1 Hb) as HI'.
    apply loop_body_inr in Hb. destruct Hb as (He2 & _).
    apply (IH st2 st'); try assumption; lia.
  - inversion Hloop; subst st'. eapply Inv2_stop; eassumption.
Qed.

(** A successful run: the final state of the loop and what it satisfies. *)
Lemma run_success_shape :
  status the_result = Success ->
  exists st,
    Inv st /\ Inv2 st /\ ground_test st = false /\
    (iterationCount st < MAX_ITERATIONS)%Z /\
    the_result =
      mkTrajectoryResultWithStatus Success ""
        (Some {| trajectory := interpolateFinalPoint st;
                 distance := pt_x (back (interpolateFinalPoint st));
                 apex := r_apex st |}).
Proof.
  intros Hs.
  destruct (result_cases libm initialSpeed launchAngle spinRate windSpeed windAngle
              spinAxis) as [(what & _ & Hr)|(st & _ & Hl & Hr)].
  - rewrite Hr in Hs. discriminate.
  - exists st. rewrite Hr in Hs |- *. rewrite status_finish in Hs.
    assert (HI2 : Inv2 st).
    { apply (loop_exit2 (Z.to_nat MAX_ITERATIONS) the_initial_state st).
      - apply Inv_initial.
      - apply Inv2_initial.
      - simpl. unfold MAX_ITERATIONS. lia.
      - simpl. unfold MAX_ITERATIONS. lia.
      - exact Hl. }
    destruct (run_finished _ _ _ _ _ _ _ st Hl) as [HI [[Hg Hc]|[Hg Hc]]].
    + split; [assumption|]. split; [assumption|]. split; [assumption|].
      unfold finish. destruct (MAX_ITERATIONS <=? iterationCount st)%Z eqn:E;
        [discriminate|]. apply Z.leb_gt in E. split; [exact E|reflexivity].
    + rewrite Hc in Hs. discriminate.
Qed.

End TrajectoryShape.

(** X6 (trajectory.cpp, calculateTrajectoryWithValidation): a successful
    result has at least two and at most [MAX_ITERATIONS] (10000) trajectory
    points: the point
    after the first step is always recorded, and each of the at most 9999
    iterations of a successful run records at most one point. *)
Theorem success_trajectory_size (libm : Libm)
    (initialSpeed launchAngle spinRate windSpeed windAngle : float)
    (spinAxis : SpinAxis) :
  status (calculateTrajectoryWithValidation libm initialSpeed launchAngle spinRate
            windSpeed windAngle spinAxis) = Success ->
  exists res : TrajectoryResult,
    result (calculateTrajectoryWithValidation libm initialSpeed launchAngle spinRate
              windSpeed windAngle spinAxis) = Some res /\
    (2 <= length (trajectory res))%nat /\
    (Z.of_nat (length (trajectory res)) <= MAX_ITERATIONS)%Z.
Proof.
  intros Hs.
  destruct (run_success_shape libm initialSpeed launchAngle spinRate windSpeed windAngle
              spinAxis Hs) as (st & HI & HI2 & Hg & Hcnt & Hr).
  rewrite Hr. simpl. eexists. split; [reflexivity|]. simpl.
  assert (Hlen : length (interpolateFinalPoint st) = length (r_trajectory st)).
  { destruct (interpolateFinalPoint_cases st HI Hg)
      as [(_ & p & rest & px & _ & _ & Hi)|[_ Hi]]; rewrite Hi; [|reflexivity].
    apply length_set_back. apply Inv_nonempty. exact HI. }
  rewrite Hlen.
  pose proof (inv2_size st HI2) as Hsize. unfold MAX_ITERATIONS in *.
  split; [|lia].
  destruct (inv2_two st HI2) as [H2|Hy]; [exact H2|].
  unfold ground_test in Hg. rewrite Hy in Hg. discriminate Hg.
Qed.

Lemma success_trajectory_size_witness :
  status (calculateTrajectoryWithValidation libm_ref 2.0 45.0 2000.0 0.0 0.0 noSpinAxis)
    = Success /\
  exists res : TrajectoryResult,
    result (calculateTrajectoryWithValidation libm_ref 2.0 45.0 2000.0 0.0 0.0 noSpinAxis)
      = Some res /\
    (2 <= length (trajectory res))%nat /\
    (Z.of_nat (length (trajectory res)) <= MAX_ITERATIONS)%Z.
Proof.
  split.
  - vm_compute. reflexivity.
  - apply (success_trajectory_size libm_ref 2.0 45.0 2000.0 0.0 0.0 noSpinAxis).
    vm_compute. reflexivity.
Defined.

(** X7 (trajectory.cpp, calculateTrajectoryWithValidation): in a successful
    result the apex lies between 0 and 500 and no trajectory point is higher
    than the apex. *)
Theorem success_apex_bounds (libm : Libm)
    (initialSpeed launchAngle spinRate windSpeed windAngle : float)
    (spinAxis : SpinAxis) :
  status (calculateTrajectoryWithValidation libm initialSpeed launchAngle spinRate
            windSpeed windAngle spinAxis) = Success ->
  exists res : TrajectoryResult,
    result (calculateTrajectoryWithValidation libm initialSpeed launchAngle spinRate
              windSpeed windAngle spinAxis) = Some res /\
    (0.0 <=? apex res) = true /\ (apex res <=? 500.0) = true /\
    Forall (fun p => (pt_y p <=? apex res) = true) (trajectory res).
Proof.
  intros Hs.
  destruct (run_success_shape libm initialSpeed launchAngle spinRate windSpeed windAngle
              spinAxis Hs) as (st & HI & HI2 & Hg & Hcnt & Hr).
  rewrite Hr. simpl. eexists. split; [reflexivity|]. simpl.
  split; [exact (inv2_apex_lo st HI2)|]. split; [exact (inv2_apex_hi st HI2)|].
  destruct (interpolateFinalPoint_cases st HI Hg)
    as [(_ & p & rest & px & _ & _ & Hi)|[_ Hi]]; rewrite Hi.
  - apply Forall_app. split.
    + apply Forall_removelast. exact (inv2_apex_all st HI2).
    + constructor; [exact (inv2_apex_lo st HI2)|constructor].
  - exact (inv2_apex_all st HI2).
Qed.

Lemma success_apex_bounds_witness :
  status (calculateTrajectoryWithValidation libm_ref 2.0 45.0 2000.0 0.0 0.0 noSpinAxis)
    = Success /\
  exists res : TrajectoryResult,
    result (calculateTrajectoryWithValidation libm_ref 2.0 45.0 2000.0 0.0 0.0 noSpinAxis)
      = Some res /\
    (0.0 <=? apex res) = true /\ (apex res <=? 500.0) = true /\
    Forall (fun p => (pt_y p <=? apex res) = true) (trajectory res).
Proof.
  split.
  - vm_compute. reflexivity.
  - apply (success_apex_bounds libm_ref 2.0 45.0 2000.0 0.0 0.0 noSpinAxis).
    vm_compute. reflexivity.
Defined.



(** X9 (trajectory.cpp, calculateTrajectory): the legacy entry point always
    returns a result, and the trajectory of that result is empty exactly when
    the validated calculation did not succeed: a caller of the legacy
    function can tell failure from success by the empty trajectory. *)
Theorem legacy_empty_iff_failure (libm : Libm)
    (initialSpeed launchAngle spinRate windSpeed windAngle : float)
    (spinAxis : SpinAxis) :
  exists res : TrajectoryResult,
    calculateTrajectory libm initialSpeed launchAngle spinRate windSpeed windAngle spinAxis
      = Some res /\
    (trajectory res = [] <->
     status (calculateTrajectoryWithValidation libm initialSpeed launchAngle spinRate
               windSpeed windAngle spinAxis) <> Success).
Proof.
  unfold calculateTrajectory, isSuccess.
  destruct (status (calculateTrajectoryWithValidation libm initialSpeed launchAngle spinRate
                      windSpeed windAngle spinAxis)) eqn:Hs.
  - destruct (run_success_shape libm initialSpeed launchAngle spinRate windSpeed windAngle
                spinAxis Hs) as (st & HI & HI2 & Hg & Hcnt & Hr).
    rewrite Hr. simpl. eexists. split; [reflexivity|]. simpl.
    destruct (final_first_point st HI Hg) as [rest Hrest]. rewrite Hrest.
    split; intros H; [discriminate H|contradiction].
  - eexists. split; [reflexivity|]. simpl. split; intros H; [discriminate|reflexivity].
  - eexists. split; [reflexivity|]. simpl. split; intros H; [discriminate|reflexivity].
  - eexists. split; [reflexivity|]. simpl. split; intros H; [discriminate|reflexivity].
Qed.

(** X10 (trajectory.cpp, the simulation loop): the loop terminates.  After
    at most 10000 executions of its body it has stopped or raised: giving the
    model more iterations than [MAX_ITERATIONS] changes nothing, and a loop
    that stops leaves the iteration counter between 0 and
    [MAX_ITERATIONS + 1]. *)
Theorem simulation_loop_terminates (libm : Libm)
    (initialSpeed launchAngle spinRate windSpeed windAngle : float)
    (spinAxis : SpinAxis) (extra : nat) :
  loop libm initialSpeed spinRate windSpeed windAngle spinAxis
    (extra + Z.to_nat MAX_ITERATIONS) (initial_state libm initialSpeed launchAngle)
  = loop libm initialSpeed spinRate windSpeed windAngle spinAxis
      (Z.to_nat MAX_ITERATIONS) (initial_state libm initialSpeed launchAngle)
  /\ forall st : LoopState,
       loop libm initialSpeed spinRate windSpeed windAngle spinAxis
         (Z.to_nat MAX_ITERATIONS) (initial_state libm initialSpeed launchAngle) = inr st ->
       (0 <= iterationCount st <= MAX_ITERATIONS + 1)%Z.
Proof.
  split; [apply loop_fuel_irrelevant|].
  intros st Hl.
  destruct (run_finished libm initialSpeed launchAngle spinRate windSpeed windAngle
              spinAxis st Hl) as [_ [[_ Hc]|[_ Hc]]]; unfold MAX_ITERATIONS in *; lia.
Qed.

(** * A speed that is not a number *)

Lemma loop_body_nan_speed (libm : Libm) (a b c d : float) (ax : SpinAxis)
    (st : LoopState) :
  vx st = nan ->
  loop_body libm a b c d ax st =
  inl (PhysicsValidationError "Relative velocity calculation resulted in non-finite value").
Proof.
  intros Hvx. unfold loop_body, calculateRelativeVelocity. cbv beta iota zeta.
  rewrite Hvx, sub_nan_l, mul_nan_l, add_nan_l.
  change (PrimFloat.sqrt nan) with nan.
  reflexivity.
Qed.

(** X11 (trajectory.cpp, calculateTrajectoryWithValidation): an initial
    speed that is NaN is not caught by [validateLaunchParameters], whose
    tests are all comparisons.  When the other parameters pass as well, the
    calculation stops in its first iteration and returns [InvalidInput] with
    the message of the relative velocity check, with every C library. *)
Theorem nan_speed_rejected_in_first_iteration (libm : Libm)
    (launchAngle spinRate windSpeed windAngle : float) (spinAxis : SpinAxis) :
  validateLaunchParameters nan launchAngle spinRate windSpeed windAngle = inr tt ->
  calculateTrajectoryWithValidation libm nan launchAngle spinRate windSpeed windAngle
    spinAxis
  = mkTrajectoryResultWithStatus InvalidInput
      "Relative velocity calculation resulted in non-finite value" None.
Proof.
  intros Hv. unfold calculateTrajectoryWithValidation, try_block.
  rewrite Hv.
  change (Z.to_nat MAX_ITERATIONS) with (S (Z.to_nat 9999)).
  cbv beta iota delta [bind].
  erewrite loop_raise; cycle 1.
  { reflexivity. }
  { apply loop_body_nan_speed. simpl. apply mul_nan_l. }
  reflexivity.
Qed.

Lemma nan_speed_rejected_in_first_iteration_witness :
  validateLaunchParameters nan 10.5 2700.0 5.0 90.0 = inr tt /\
  calculateTrajectoryWithValidation libm_ref nan 10.5 2700.0 5.0 90.0 noSpinAxis
  = mkTrajectoryResultWithStatus InvalidInput
      "Relative velocity calculation resulted in non-finite value" None.
Proof.
  split.
  - reflexivity.
  - apply (nan_speed_rejected_in_first_iteration libm_ref 10.5 2700.0 5.0 90.0 noSpinAxis).
    reflexivity.
Defined.

(** * The atmosphere table *)

Section LayerFacts.

Context (libm : Libm) (HF : AnnexF libm).

Ltac annexF :=
  let E1 := fresh "E" in pose proof (exp_pos_zero libm HF) as E1;
  let E2 := fresh "E" in pose proof (exp_neg_zero libm HF) as E2;
  let E5 := fresh "E" in pose proof (pow_one_base libm HF) as E5;
  cbv -[c_exp c_sin c_cos c_pow] in E1, E2, E5;
  repeat (progress (cbv -[c_exp c_sin c_cos c_pow]; rewrite ?E1, ?E2, ?E5));
  clear E1 E2 E5.

Lemma layer_base_lookup :
  Forall (fun l => getLayer (baseAltitude l) = l /\
                   getTemperature (baseAltitude l) = temperature l) layers.
Proof. repeat constructor. Qed.

Lemma layer_base_pressure :
  Forall (fun l => getPressure libm (baseAltitude l) = pressure l) layers.
Proof.
  repeat constructor; annexF; reflexivity.
Qed.

End LayerFacts.

(** X12 (atmosphere.cpp, findLayerIndex / getLayer): the layer selected
    for an altitude that is a number contains the altitude: the altitude is
    below the base of every higher layer, and at or above the base of the
    selected layer unless that is the lowest one (which also takes every
    altitude below its base 0). *)
Theorem selected_layer_contains_altitude (altitude : float) :
  ordered altitude = true ->
  (findLayerIndex altitude = 0%nat \/
   (baseAltitude (getLayer altitude) <=? altitude) = true) /\
  Forall (fun l => (baseAltitude (getLayer altitude) <? baseAltitude l) = true ->
                   (altitude <? baseAltitude l) = true) layers.
Proof.
  intros Ho. unfold getLayer, findLayerIndex, layers. simpl.
  destruct (altitude <? 11000) eqn:H1; simpl;
    [|destruct (altitude <? 20000) eqn:H2; simpl;
      [|destruct (altitude <? 32000) eqn:H3; simpl;
        [|destruct (altitude <? 47000) eqn:H4; simpl]]].
  all: split;
    [first [left; reflexivity | right; apply not_ltb_leb; (assumption || reflexivity)]|].
  all: repeat constructor; intros Hlt; try discriminate Hlt; try assumption.
  all: first [ apply (ltb_trans altitude 11000); [assumption|reflexivity]
             | apply (ltb_trans altitude 20000); [assumption|reflexivity]
             | apply (ltb_trans altitude 32000); [assumption|reflexivity] ].
Qed.

Lemma selected_layer_contains_altitude_witness :
  (findLayerIndex 15000 = 0%nat \/
   (baseAltitude (getLayer 15000) <=? 15000) = true) /\
  Forall (fun l => (baseAltitude (getLayer 15000) <? baseAltitude l) = true ->
                   (15000 <? baseAltitude l) = true) layers.
Proof.
  apply (selected_layer_contains_altitude 15000). reflexivity.
Defined.

(** X13 (atmosphere.cpp, getLayer / getTemperature / getPressure): the
    table is a fixed point of the lookups.  At the base altitude of each of
    the five layers, [getLayer] returns that layer, [getTemperature] returns
    its base temperature and, with a C library that respects Annex F
    ([exp(-0) = 1], [pow(1, y) = 1]), [getPressure] returns its base
    pressure, exactly. *)
Theorem layer_table_round_trip (libm : Libm) :
  AnnexF libm ->
  Forall (fun l => getLayer (baseAltitude l) = l /\
                   getTemperature (baseAltitude l) = temperature l /\
                   getPressure libm (baseAltitude l) = pressure l) layers.
Proof.
  intros HF.
  pose proof layer_base_lookup as H1.
  pose proof (layer_base_pressure libm HF) as H2.
  rewrite Forall_forall in *. intros l Hl.
  destruct (H1 l Hl) as [Ha Hb]. split; [exact Ha|]. split; [exact Hb|exact (H2 l Hl)].
Qed.

Lemma layer_table_round_trip_witness :
  Forall (fun l => getLayer (baseAltitude l) = l /\
                   getTemperature (baseAltitude l) = temperature l /\
                   getPressure libm_ref (baseAltitude l) = pressure l) layers.
Proof.
  apply (layer_table_round_trip libm_ref). apply libm_ref_AnnexF.
Defined.

(** * The closed forms over the real numbers *)

Section IdealFacts.

Local Open Scope R_scope.


End IdealFacts.





(** * The driver (main.cpp) *)

(** X17 (main.cpp, SimulationParams::validate): parameters that pass the
    driver's own check are all numbers, and they pass
    [validateLaunchParameters] exactly when the speed is at most 100, the spin
    rate at most 10000 and the wind speed at most 50: the driver's check has
    no upper bound on these three, so it lets through parameters that the
    calculation then rejects as invalid input. *)
Theorem driver_validation_is_weaker (params : SimulationParams) :
  SimulationParams_validate params = true ->
  (ordered (sp_initialSpeed params) && ordered (sp_launchAngle params)
   && ordered (sp_spinRate params) && ordered (sp_windSpeed params)
   && ordered (sp_windAngle params) = true) /\
  (validateLaunchParameters (sp_initialSpeed params) (sp_launchAngle params)
     (sp_spinRate params) (sp_windSpeed params) (sp_windAngle params) = inr tt
   <-> (sp_initialSpeed params <=? 100.0) && (sp_spinRate params <=? 10000.0)
       && (sp_windSpeed params <=? 50.0) = true).
Proof.
  unfold SimulationParams_validate. intros H. rewrite !andb_true_iff in H.
  destruct H as [[[[[[Hs Ha1] Ha2] Hr] Hw] Hwa1] Hwa2].
  destruct (ltb_ordered _ _ Hs) as [_ Hos].
  destruct (leb_ordered _ _ Ha1) as [_ Hoa].
  destruct (leb_ordered _ _ Hr) as [_ Hor].
  destruct (leb_ordered _ _ Hw) as [_ How].
  destruct (leb_ordered _ _ Hwa1) as [_ Howa].
  split; [rewrite Hos, Hoa, Hor, How, Howa; reflexivity|].
  rewrite validateLaunchParameters_spec. unfold launch_accepts, nan_or_between.
  rewrite Hos, Hoa, Hor, How, Howa, (ltb_leb _ _ Hs), Ha1, Ha2, Hr, Hw, Hwa1, Hwa2.
  simpl. rewrite !andb_true_r. reflexivity.
Qed.

Lemma driver_validation_is_weaker_witness :
  SimulationParams_validate createDefaultParams = true /\
  (validateLaunchParameters 70.0 12.0 3000.0 10.0 45.0 = inr tt
   <-> (70.0 <=? 100.0) && (3000.0 <=? 10000.0) && (10.0 <=? 50.0) = true).
Proof.
  split; [reflexivity|].
  apply (driver_validation_is_weaker createDefaultParams). reflexivity.
Defined.

(** X18 (main.cpp, SimulationManager::run): the driver exits with code 0
    exactly when its built-in parameters pass its check and the calculation
    returns [Success].  With the reference C library it exits with code 1:
    the built-in launch (70 m/s, 12 degrees, 3000 rpm, wind 10 at 45
    degrees) passes both validations and runs into the iteration cap. *)
Theorem driver_exit_code :
  (forall libm : Libm,
     SimulationManager_run libm = 0%Z <->
     status (runSimulation libm createDefaultParams) = Success) /\
  SimulationParams_validate createDefaultParams = true /\
  validateLaunchParameters 70.0 12.0 3000.0 10.0 45.0 = inr tt /\
  status (runSimulation libm_ref createDefaultParams) = ConvergenceFailure /\
  SimulationManager_run libm_ref = 1%Z.
Proof.
  split; [|split; [|split; [|split]]].
  - intros libm. unfold SimulationManager_run, isSuccess.
    change (SimulationParams_validate createDefaultParams) with true. simpl negb.
    cbv beta iota zeta.
    destruct (status (runSimulation libm createDefaultParams));
      split; intros H; try reflexivity; discriminate H.
  - reflexivity.
  - reflexivity.
  - vm_compute. reflexivity.
  - vm_compute. reflexivity.
Qed.

(** * The messages of a failed calculation *)

Section KnownMessages.

Lemma rkm_ret {A : Type} (a : A) : raises_known_message (ret a).
Proof. exact I. Qed.

Lemma rkm_bind {A B : Type} (c : exc A) (k : A -> exc B) :
  raises_known_message c -> (forall a, raises_known_message (k a)) ->
  raises_known_message (bind c k).
Proof.
  destruct c as [[w|w]|a]; simpl; auto.
Qed.

Lemma In_by_decision (l : list string) (w : string) :
  existsb (String.eqb w) l = true -> In w l.
Proof.
  intros H. apply existsb_exists in H. destruct H as [w' [Hin He]].
  apply String.eqb_eq in He. subst w'. exact Hin.
Qed.

Lemma rkm_validateLaunchParameters (a b c d e : float) :
  raises_known_message (validateLaunchParameters a b c d e).
Proof.
  unfold validateLaunchParameters.
  repeat match goal with |- context [if ?t then _ else _] => destruct t end;
    try exact I; apply In_by_decision; reflexivity.
Qed.

Lemma rkm_validateTrajectoryPoint (p : TrajectoryPoint) (d : float) :
  raises_known_message (validateTrajectoryPoint p d).
Proof.
  unfold validateTrajectoryPoint.
  repeat match goal with |- context [if ?t then _ else _] => destruct t end;
    try exact I; apply In_by_decision; reflexivity.
Qed.

Lemma rkm_validatePhysicalQuantity (v lo hi : float) (name : string) :
  In name quantity_names ->
  raises_known_message (validatePhysicalQuantity v lo hi name).
Proof.
  intros Hn. unfold validatePhysicalQuantity.
  repeat match goal with |- context [if ?t then _ else _] => destruct t end;
    try exact I; unfold throw, raises_known_message, validation_messages;
    apply in_or_app; right; apply in_or_app; [left|right];
    apply (in_map (fun n => (n ++ _)%string)); exact Hn.
Qed.

Context (libm : Libm).
Context (initialSpeed launchAngle spinRate windSpeed windAngle : float)
        (spinAxis : SpinAxis).

Lemma rkm_updateVelocity (st : LoopState) (a b c d : float) :
  raises_known_message (updateVelocity libm initialSpeed spinRate spinAxis st a b c d).
Proof.
  unfold updateVelocity.
  destruct (0.001 <? c); [|apply rkm_ret].
  repeat (apply rkm_bind;
          [apply rkm_validatePhysicalQuantity; apply In_by_decision; reflexivity
          |intros _]).
  apply rkm_ret.
Qed.

Lemma rkm_loop_body (st : LoopState) :
  raises_known_message
    (loop_body libm initialSpeed spinRate windSpeed windAngle spinAxis st).
Proof.
  unfold loop_body.
  destruct (calculateRelativeVelocity libm (vx st) (vy st) _ windAngle) as [relVx relVy].
  apply rkm_bind;
    [apply rkm_validatePhysicalQuantity; apply In_by_decision; reflexivity|intros _].
  apply rkm_bind; [apply rkm_updateVelocity|intros [vx' vy']].
  apply rkm_bind; [apply rkm_validateTrajectoryPoint|intros _].
  apply rkm_ret.
Qed.

Lemma rkm_loop (fuel : nat) (st : LoopState) :
  raises_known_message
    (loop libm initialSpeed spinRate windSpeed windAngle spinAxis fuel st).
Proof.
  revert st. induction fuel as [|fuel IH]; intros st; simpl;
    destruct (loop_cond st) as [[|] st1]; try apply rkm_ret.
  apply rkm_bind; [apply rkm_loop_body|intros st2; apply IH].
Qed.

Lemma rkm_try_block :
  raises_known_message
    (try_block libm initialSpeed launchAngle spinRate windSpeed windAngle spinAxis).
Proof.
  unfold try_block.
  apply rkm_bind; [apply rkm_validateLaunchParameters|intros _].
  apply rkm_bind; [apply rkm_loop|intros st; apply rkm_ret].
Qed.

End KnownMessages.

(** X19 (trajectory.cpp and physics_validation.h): the message of a result
    with status [InvalidInput] is one of 31 fixed texts: the eight of
    [validateLaunchParameters], the three of [validateTrajectoryPoint], and
    for each of the ten checked quantities its name followed by
    " calculation resulted in non-finite value" or " out of valid range".
    The message of [ConvergenceFailure] is a single fixed text. *)
Theorem failure_messages_are_known (libm : Libm)
    (initialSpeed launchAngle spinRate windSpeed windAngle : float)
    (spinAxis : SpinAxis) :
  let res := calculateTrajectoryWithValidation libm initialSpeed launchAngle
               spinRate windSpeed windAngle spinAxis in
  match status res with
  | Success => errorMessage res = ""%string
  | InvalidInput => In (errorMessage res) validation_messages
  | ConvergenceFailure =>
      errorMessage res =
      "Trajectory calculation failed to converge within maximum iterations"%string
  | CalculationError => False
  end.
Proof.
  cbv zeta.
  pose proof (rkm_try_block libm initialSpeed launchAngle spinRate windSpeed windAngle
                spinAxis) as Hk.
  unfold calculateTrajectoryWithValidation.
  destruct (try_block libm initialSpeed launchAngle spinRate windSpeed windAngle spinAxis)
    as [[what|what]|r] eqn:Ht; simpl in Hk |- *.
  - exact Hk.
  - contradiction.
  - unfold try_block in Ht.
    apply bind_inr in Ht. destruct Ht as [[] [_ Ht]].
    apply bind_inr in Ht. destruct Ht as [st [_ Ht]].
    inversion Ht. unfold finish.
    destruct (MAX_ITERATIONS <=? iterationCount st)%Z; reflexivity.
Qed.

(** * The lift coefficient and the Magnus force *)

(** X20 (physics.cpp, calculateLiftCoefficient): whatever the spin rate
    and the velocity, the lift coefficient returned is never above
    [MAX_LIFT_COEFFICIENT] (0.35): it is at most 0.35, or it is NaN (as for
    a spin rate and a velocity that are both zero). *)
Theorem lift_coefficient_capped (spinRate velocity : float) :
  (MAX_LIFT_COEFFICIENT <? calculateLiftCoefficient spinRate velocity) = false /\
  ((calculateLiftCoefficient spinRate velocity <=? MAX_LIFT_COEFFICIENT) = true \/
   ordered (calculateLiftCoefficient spinRate velocity) = false).
Proof.
  unfold calculateLiftCoefficient. cbv zeta.
  set (liftCoef := BASE_LIFT_COEFFICIENT * _ * _).
  unfold std_min. destruct (MAX_LIFT_COEFFICIENT <? liftCoef) eqn:E.
  - split; [reflexivity|]. left. reflexivity.
  - split; [exact E|].
    destruct (ordered liftCoef) eqn:Ho; [left|right; reflexivity].
    apply not_ltb_leb; [reflexivity|assumption|assumption].
Qed.

Section IdealMagnusFacts.

Local Open Scope R_scope.


End IdealMagnusFacts.


